(** * validate.py: the validator client and the batch driver

    A shallow embedding of [validate.py].  The script is I/O glue: it
    reads files, talks HTTP and prints.  The embedding keeps Python's
    values (str as code points, decoded JSON, file objects with a
    position) and threads the outside world through a small
    state-and-exception monad, so that what is sent, what is printed and
    which exception escapes can all be read off a run. *)

From Stdlib Require Import String Ascii Strings.Byte.
From Stdlib Require Import List ZArith NArith Bool Lia.
From Stdlib Require Import Permutation.
From Stdlib Require Import Floats.SpecFloat.
Import ListNotations.

Set Implicit Arguments.
Set Warnings "-register-all".
Local Open Scope list_scope.

(** ** Python [str]

    A Python [str] is a sequence of Unicode code points; slicing,
    [startswith], [endswith] and iteration all work on code points. *)

Definition char := N.
Definition str := list char.

(** The source file is UTF-8; [u] reads a literal of the source (given
    as its UTF-8 bytes) into the code points of the [str] it denotes. *)
Definition utf8_step (acc : list N) (b : N) : list N :=
  if (b <? 128)%N then b :: acc
  else if (b <? 192)%N then
    match acc with
    | c :: acc' => (c * 64 + (b - 128))%N :: acc'
    | [] => []
    end
  else if (b <? 224)%N then (b - 192)%N :: acc
  else if (b <? 240)%N then (b - 224)%N :: acc
  else (b - 240)%N :: acc.

Definition u (s : string) : str :=
  rev (fold_left utf8_step (map N_of_ascii (list_ascii_of_string s)) []).

Fixpoint str_eqb (a b : str) : bool :=
  match a, b with
  | [], [] => true
  | x :: a', y :: b' => (x =? y)%N && str_eqb a' b'
  | _, _ => false
  end.

(** [s.startswith(p)] *)
Fixpoint startswith (s p : str) {struct p} : bool :=
  match p, s with
  | [], _ => true
  | c :: p', d :: s' => (c =? d)%N && startswith s' p'
  | _ :: _, [] => false
  end.

(** [s.endswith(p)] *)
Definition endswith (s p : str) : bool :=
  (length p <=? length s)%nat && str_eqb (skipn (length s - length p) s) p.

(** [s[0:n]]: slicing past the end returns the shorter prefix. *)
Definition slice0 (n : nat) (s : str) : str := firstn n s.

(** [x in l] for a list of str. *)
Definition str_in (x : str) (l : list str) : bool := existsb (str_eqb x) l.

(** What a strict UTF-8 encoder takes: any str without a surrogate
    code point (U+D800 to U+DFFF). *)
Definition utf8_encodable (s : str) : bool :=
  forallb (fun c => negb ((55296 <=? c) && (c <=? 57343))%N) s.

(** Decimal digits, as [%d] and [str(int)] print them. *)
Fixpoint uint_chars (d : Decimal.uint) : str :=
  match d with
  | Decimal.Nil => []
  | Decimal.D0 d => 48%N :: uint_chars d
  | Decimal.D1 d => 49%N :: uint_chars d
  | Decimal.D2 d => 50%N :: uint_chars d
  | Decimal.D3 d => 51%N :: uint_chars d
  | Decimal.D4 d => 52%N :: uint_chars d
  | Decimal.D5 d => 53%N :: uint_chars d
  | Decimal.D6 d => 54%N :: uint_chars d
  | Decimal.D7 d => 55%N :: uint_chars d
  | Decimal.D8 d => 56%N :: uint_chars d
  | Decimal.D9 d => 57%N :: uint_chars d
  end.

Definition decimal (z : Z) : str :=
  match Z.to_int z with
  | Decimal.Pos d => uint_chars d
  | Decimal.Neg d => 45%N :: uint_chars d
  end.

(** ** Decoded JSON

    What [Response.json()] returns: None, bool, int, float, str, list,
    dict.  A dict is kept as its items in insertion order. *)

Inductive json : Type :=
| JNull
| JBool (b : bool)
| JInt (n : Z)
| JFloat (f : spec_float)
| JStr (s : str)
| JArr (l : list json)
| JObj (d : list (str * json)).

Fixpoint dict_get (k : str) (d : list (str * json)) : option json :=
  match d with
  | [] => None
  | (k', v) :: d' => if str_eqb k k' then Some v else dict_get k d'
  end.

(** ** Exceptions and results *)

Inductive exn : Type :=
| OSError
| RequestException
| JSONDecodeError
| KeyError (k : str)
| TypeError
| AttributeError
| ValueError
| OverflowError
| UnicodeEncodeError
| RecursionError
| OtherException (class_name : str).

Inductive result (A : Type) : Type :=
| Ok (a : A)
| Raise (e : exn).
Arguments Raise {A} e.

(** [int(x)] for a float: truncation toward zero; NaN and the
    infinities have no integer value. *)
Definition float_to_int (f : spec_float) : result Z :=
  match f with
  | S754_zero _ => Ok 0%Z
  | S754_infinity _ => Raise OverflowError
  | S754_nan => Raise ValueError
  | S754_finite s m e =>
      let a := if (0 <=? e)%Z then (Zpos m * 2 ^ e)%Z
               else Z.shiftr (Zpos m) (- e) in
      Ok (if s then (- a)%Z else a)
  end.

(** ** HTTP as [requests] sees it *)

Record Response : Type := {
  status_code : Z;
  content : list byte
}.

(** One entry of [files=]: [(filename, data, content_type)]; the data
    is what reading the file object yields when the request is built. *)
Record FilePart : Type := {
  part_filename : str;
  part_data : list byte;
  part_type : str
}.

Inductive http_request : Type :=
| GET (url : str) (verify : bool)
| POST (url : str) (files : list (str * FilePart))
       (data : list (str * str)) (verify : bool).

(** A call to [requests.get] or [requests.post], with what came of it:
    the response it returned or the exception it raised. *)
Record exchange : Type := {
  sent : http_request;
  received : result Response
}.

(** ** File objects: a byte store with a position *)

Record file : Type := {
  f_data : list byte;
  f_pos : nat
}.

(** [tempfile.TemporaryFile()]: empty, positioned at 0.  The temporary
    store is kept in memory here, whatever the state of the machine's
    temporary directory: creating it and writing to it do not raise. *)
Definition TemporaryFile : file := {| f_data := []; f_pos := 0 |}.

(** [f.write(bs)]: overwrite from the position on, growing the store
    (zero-filled if the position is past the end). *)
Definition f_write (bs : list byte) (f : file) : file :=
  {| f_data := firstn (f_pos f) (f_data f)
               ++ repeat x00 (f_pos f - length (f_data f))
               ++ bs
               ++ skipn (f_pos f + length bs) (f_data f);
     f_pos := f_pos f + length bs |}.

(** [f.seek(n)] *)
Definition f_seek (n : nat) (f : file) : file :=
  {| f_data := f_data f; f_pos := n |}.

(** [f.read()]: everything from the position to the end. *)
Definition f_read (f : file) : list byte := skipn (f_pos f) (f_data f).

(** ** The outside world

    The file system, the network, the console's encoding and the two
    library functions whose code is not the script's: JSON decoding of a
    response body and Python's [repr] of a value that is not a str.  The
    world has a state of its own ([Env]), so a server may answer the
    same request differently each time.  A call into the world returns
    a value or raises, and which exception it raises is the world's
    business: [open] raises [OSError] for a missing file, [ValueError]
    for a name with a NUL in it; a [requests] call raises one of its
    own exceptions or whatever its transport lets through; [json()]
    raises the decoding exception, or [RecursionError] for a body
    nested too deep.  [stdout_encodes] says which lines the console's
    encoding can take; [print] raises on the others. *)

Class Platform (Env : Type) : Type := {
  os_listdir : str -> Env -> result (list str) * Env;
  open_rb : str -> Env -> result (list byte) * Env;
  http : http_request -> Env -> result Response * Env;
  json_loads : Response -> result json;
  stdout_encodes : str -> bool;
  py_repr : json -> str
}.

(** ** Runs: world state, log of HTTP exchanges, console *)

Record World (Env : Type) : Type := {
  env : Env;
  log : list exchange;
  console : list str
}.

(** A computation runs in a world and ends with a value or with an
    uncaught exception; what it did before raising stays done. *)
Definition M (Env A : Type) : Type := World Env -> result A * World Env.

Definition ret {Env A : Type} (a : A) : M Env A := fun w => (Ok a, w).

Definition raise {Env A : Type} (e : exn) : M Env A := fun w => (Raise e, w).

Definition bind {Env A B : Type} (c : M Env A) (k : A -> M Env B) : M Env B :=
  fun w =>
    match c w with
    | (Ok a, w') => k a w'
    | (Raise e, w') => (Raise e, w')
    end.

Declare Scope py_scope.
Delimit Scope py_scope with py.
Notation "x <- c ;; k" := (bind c (fun x => k))
  (at level 61, c at next level, right associativity) : py_scope.
Notation "c ;; k" := (bind c (fun _ => k))
  (at level 61, right associativity) : py_scope.
Local Open Scope py_scope.

Definition lift {Env A : Type} (r : result A) : M Env A := fun w => (r, w).

(** [for x in l: body(x)] *)
Fixpoint for_each {Env A : Type} (l : list A) (body : A -> M Env unit)
  : M Env unit :=
  match l with
  | [] => ret tt
  | x :: l' => body x ;; for_each l' body
  end.

(** The world after some more lines went to the console. *)
Definition say {Env : Type} (lines : list str) (w : World Env) : World Env :=
  {| env := env w; log := log w; console := console w ++ lines |}.

(** The exchanges a computation added to the log, and the lines it
    added to the console. *)
Definition issued {Env A : Type} (c : M Env A) (w : World Env)
  : list exchange :=
  skipn (length (log w)) (log (snd (c w))).

Definition printed {Env A : Type} (c : M Env A) (w : World Env) : list str :=
  skipn (length (console w)) (console (snd (c w))).

Definition is_GET (x : exchange) : bool :=
  match sent x with GET _ _ => true | POST _ _ _ _ => false end.

(** A computation is steady when its outcome and the lines it prints
    are the same in every world. *)
Definition steady {Env A : Type} (c : M Env A) : Prop :=
  exists (r : result A) (ls : list str),
    forall w, fst (c w) = r /\ console (snd (c w)) = console w ++ ls.

Section Script.
Context {Env : Type} {P : Platform Env}.

(** [print(line)]: the line is encoded first; if the console cannot
    encode it, [UnicodeEncodeError] is raised and nothing is written. *)
Definition print (line : str) : M Env unit :=
  fun w =>
    if stdout_encodes line then (Ok tt, say [line] w)
    else (Raise UnicodeEncodeError, w).

(** [os.listdir(path)] *)
Definition listdir (path : str) : M Env (list str) :=
  fun w =>
    let (r, e) := os_listdir path (env w) in
    (r, {| env := e; log := log w; console := console w |}).

(** [open(filename, "rb")] *)
Definition open_ (filename : str) : M Env file :=
  fun w =>
    let (r, e) := open_rb filename (env w) in
    (match r with
     | Ok bs => Ok {| f_data := bs; f_pos := 0 |}
     | Raise x => Raise x
     end,
     {| env := e; log := log w; console := console w |}).

(** A call to [requests]: it is logged with its outcome, and an
    exception it raises is the caller's. *)
Definition send (rq : http_request) : M Env Response :=
  fun w =>
    let (ans, e) := http rq (env w) in
    (ans,
     {| env := e;
        log := log w ++ [{| sent := rq; received := ans |}];
        console := console w |}).

(** [requests.get(url, verify=...)] *)
Definition requests_get (url : str) (verify : bool) : M Env Response :=
  send (GET url verify).

(** [requests.post(url, files={name: (filename, f, type)}, data=...,
    verify=...)]: the file object is read when the body is built. *)
Definition requests_post (url : str)
    (files : list (str * (str * file * str)))
    (data : list (str * str)) (verify : bool) : M Env Response :=
  send (POST url
          (map (fun '(name, (fn, f, ty)) =>
                  (name, {| part_filename := fn;
                            part_data := f_read f;
                            part_type := ty |})) files)
          data verify).

(** [r.json()] *)
Definition Response_json (r : Response) : M Env json :=
  lift (json_loads r).

(** ** The validator client *)

Definition HTML_VALIDATOR_URL : str :=
  Eval vm_compute in u "http://validator.w3.org/nu/?out=json".

Definition is_remote (filename : str) : bool :=
  startswith filename (u "http://") || startswith filename (u "https://").

Definition validate (filename : str) (verbose : bool) : M Env json :=
  let is_remote := is_remote filename in
  f <- (if is_remote then ret TemporaryFile else open_ filename) ;;
  f <- (if is_remote
        then r <- requests_get filename false ;;
             ret (f_seek 0 (f_write (content r) f))
        else ret f) ;;
  r <- requests_post HTML_VALIDATOR_URL
         [(u "file", (filename, f, u "text/html"))]
         [(u "out", u "json"); (u "showsource", u "yes")]
         false ;;
  Response_json r.

(** ** Operations on decoded values, as the driver uses them *)

(** [v[k]] with a str key. *)
Definition getitem (v : json) (k : str) : M Env json :=
  match v with
  | JObj d =>
      match dict_get k d with
      | Some x => ret x
      | None => raise (KeyError k)
      end
  | _ => raise TypeError
  end.

(** [for m in v]: a list yields its elements, a str its characters, a
    dict its keys; nothing else is iterable. *)
Definition iter (v : json) : M Env (list json) :=
  match v with
  | JArr l => ret l
  | JStr s => ret (map (fun c => JStr [c]) s)
  | JObj d => ret (map (fun kv => JStr (fst kv)) d)
  | _ => raise TypeError
  end.

(** [v.startswith(p)]: only a str has the method. *)
Definition startswith_ (v : json) (p : str) : M Env bool :=
  match v with
  | JStr s => ret (startswith s p)
  | _ => raise AttributeError
  end.

(** [str(v)], as [%s] applies it. *)
Definition py_str (v : json) : str :=
  match v with
  | JStr s => s
  | JNull => u "None"
  | JBool true => u "True"
  | JBool false => u "False"
  | JInt n => decimal n
  | _ => py_repr v
  end.

(** [%d]: needs a number; a float is truncated. *)
Definition format_d (v : json) : M Env str :=
  match v with
  | JInt n => ret (decimal n)
  | JBool b => ret (decimal (if b then 1 else 0))
  | JFloat f => n <- lift (float_to_int f) ;; ret (decimal n)
  | _ => raise TypeError
  end.

(** ** The batch driver *)

Definition IMG_ALT : str :=
  Eval vm_compute in
    u "An “img” element must have an “alt” attribute".

Definition NAME_OBSOLETE : str :=
  Eval vm_compute in u "The “name” attribute is obsolete".

(** ["Type: %(type)s, Line: %(lastLine)d, Description: %(message)s" % m] *)
Definition format_message (m : json) : M Env str :=
  t <- getitem m (u "type") ;;
  l <- getitem m (u "lastLine") ;;
  d <- format_d l ;;
  msg <- getitem m (u "message") ;;
  ret (u "Type: " ++ py_str t ++ u ", Line: " ++ d
         ++ u ", Description: " ++ py_str msg).

(** The condition under [not] in the inner [if], with Python's
    short-circuit [or]. *)
Definition suppressed (m : json) : M Env bool :=
  a <- getitem m (u "message") ;;
  b <- startswith_ a IMG_ALT ;;
  if b then ret true
  else a' <- getitem m (u "message") ;;
       startswith_ a' NAME_OBSOLETE.

(** The body of [for m in messages]. *)
Definition report (m : json) : M Env unit :=
  s <- suppressed m ;;
  if negb s then line <- format_message m ;; print line
  else ret tt.

(** The condition of the outer [if]. *)
Definition selected (file_name : str) : bool :=
  endswith file_name (u ".html")
  && str_in (slice0 3 file_name) [u "3-5"; u "4t"; u "5t"].

(** The body of [for file_name in os.listdir(".")]. *)
Definition process (file_name : str) : M Env unit :=
  if selected file_name then
    print (u "Processing " ++ file_name) ;;
    v <- validate file_name false ;;
    messages <- getitem v (u "messages") ;;
    ms <- iter messages ;;
    for_each ms report
  else ret tt.

(** The loop over a directory enumeration. *)
Definition batch (listing : list str) : M Env unit :=
  for_each listing process.

(** The script's top level. *)
Definition main : M Env unit :=
  listing <- listdir (u ".") ;;
  batch listing.

End Script.

(** The world [P] with the status of every GET response rewritten by
    [g]; bodies and everything else are as in [P]. *)
Definition restatus {Env : Type} (g : Z -> Z) (P : Platform Env)
  : Platform Env :=
  {| os_listdir := @os_listdir Env P;
     open_rb := @open_rb Env P;
     http := fun rq e =>
       match rq with
       | GET _ _ =>
           let (ans, e') := @http Env P rq e in
           (match ans with
            | Ok r => Ok {| status_code := g (status_code r);
                            content := content r |}
            | Raise x => Raise x
            end, e')
       | POST _ _ _ _ => @http Env P rq e
       end;
     json_loads := @json_loads Env P;
     stdout_encodes := @stdout_encodes Env P;
     py_repr := @py_repr Env P |}.

(** The request [validate] posts for a target whose bytes are [body]. *)
Definition upload (filename : str) (body : list byte) : http_request :=
  POST HTML_VALIDATOR_URL
    [(u "file", {| part_filename := filename;
                   part_data := body;
                   part_type := u "text/html" |})]
    [(u "out", u "json"); (u "showsource", u "yes")]
    false.

(** ** The data model of the specification

    A ValidationMessage has a type, a line number and a description; a
    ValidationResult is an object whose "messages" is a sequence of
    them.  [as_message] reads a decoded value as such a record. *)

Record ValidationMessage : Type := {
  type_ : str;
  lastLine : Z;
  message : str
}.

Definition as_message (m : json) : option ValidationMessage :=
  match m with
  | JObj d =>
      match dict_get (u "type") d, dict_get (u "lastLine") d,
            dict_get (u "message") d with
      | Some (JStr t), Some (JInt n), Some (JStr s) =>
          Some {| type_ := t; lastLine := n; message := s |}
      | _, _, _ => None
      end
  | _ => None
  end.

Fixpoint as_messages (ms : list json) : option (list ValidationMessage) :=
  match ms with
  | [] => Some []
  | m :: ms' =>
      match as_message m, as_messages ms' with
      | Some vm, Some vms => Some (vm :: vms)
      | _, _ => None
      end
  end.

Definition as_result (v : json) : option (list ValidationMessage) :=
  match v with
  | JObj d =>
      match dict_get (u "messages") d with
      | Some (JArr ms) => as_messages ms
      | _ => None
      end
  | _ => None
  end.

(** The two notices that are not reported. *)
Definition noisy (vm : ValidationMessage) : bool :=
  startswith (message vm) IMG_ALT || startswith (message vm) NAME_OBSOLETE.

(** [Type: <type>, Line: <lastLine>, Description: <message>] *)
Definition diagnostic (vm : ValidationMessage) : str :=
  u "Type: " ++ type_ vm ++ u ", Line: " ++ decimal (lastLine vm)
    ++ u ", Description: " ++ message vm.

Definition diagnostics (vms : list ValidationMessage) : list str :=
  map diagnostic (filter (fun vm => negb (noisy vm)) vms).

(** What the driver prints for one directory entry when the validator's
    result for it is [resp file_name]. *)
Definition transcript (resp : str -> list ValidationMessage)
    (file_name : str) : list str :=
  if selected file_name
  then (u "Processing " ++ file_name) :: diagnostics (resp file_name)
  else [].

(** The filter as the specification words it: the name ends with
    ".html" and its first characters match "3-5", "4t" or "5t". *)
Definition spec_selected (file_name : str) : bool :=
  endswith file_name (u ".html")
  && (startswith file_name (u "3-5") || startswith file_name (u "4t")
      || startswith file_name (u "5t")).

(** ** A small world to run the script in

    A directory with a few files, one remote page that answers 404, and
    a stand-in for the validator that echoes the upload; the decoder
    knows two bodies and rejects every other one. *)

Module Sample.

Definition bytes (s : string) : list byte := list_byte_of_string s.

Fixpoint bytes_eqb (a b : list byte) : bool :=
  match a, b with
  | [], [] => true
  | x :: a', y :: b' => Byte.eqb x y && bytes_eqb a' b'
  | _, _ => false
  end.

Fixpoint assoc {V : Type} (k : str) (l : list (str * V)) : option V :=
  match l with
  | [] => None
  | (k', v) :: l' => if str_eqb k k' then Some v else assoc k l'
  end.

Definition files : list (str * list byte) :=
  [ (u "3-5a.html", bytes "<img>");
    (u "3-5b.html", bytes "<p>");
    (u "3-5c.html", bytes "junk");
    (u "4ty.html", bytes "<p>");
    (u "5tz.html", bytes "<p>");
    (u "other.html", bytes "<p>");
    (u "notes.txt", bytes "todo") ].

Definition directory : list str :=
  [u "3-5a.html"; u "4ty.html"; u "5tz.html"; u "other.html";
   u "notes.txt"].

Definition page_url : str := u "https://example.com/page.html".

Definition not_found : Response :=
  {| status_code := 404; content := bytes "<h1>Not Found</h1>" |}.

Definition msg (t : string) (n : Z) (s : string) : json :=
  JObj [(u "message", JStr (u s)); (u "type", JStr (u t));
        (u "lastLine", JInt n)].

(** The messages of the specification's example, decoded and as
    records. *)
Definition img_messages : list json :=
  [msg "error" 1 "An “img” element must have an “alt” attribute ...";
   msg "error" 2 "Bad tag"].

Definition img_records : list ValidationMessage :=
  [ {| type_ := u "error"; lastLine := 1;
       message := u "An “img” element must have an “alt” attribute ..." |};
    {| type_ := u "error"; lastLine := 2; message := u "Bad tag" |} ].

Definition p_messages : list json :=
  [msg "info" 3 "The “name” attribute is obsolete.";
   msg "error" 7 "Stray end tag."].

Definition img_result : json := JObj [(u "messages", JArr img_messages)].

Definition p_result : json := JObj [(u "messages", JArr p_messages)].


(** A value, or the exception raised for want of one. *)
Definition or_raise {A : Type} (x : exn) (o : option A) : result A :=
  match o with
  | Some a => Ok a
  | None => Raise x
  end.

#[global] Instance platform : Platform unit := {|
  os_listdir := fun path e =>
    (if str_eqb path (u ".") then Ok directory else Raise OSError, e);
  open_rb := fun filename e => (or_raise OSError (assoc filename files), e);
  http := fun rq e =>
    match rq with
    | GET url _ =>
        (if str_eqb url page_url then Ok not_found
         else Raise RequestException, e)
    | POST _ [(_, part)] _ _ =>
        (Ok {| status_code := 200; content := part_data part |}, e)
    | POST _ _ _ _ => (Raise RequestException, e)
    end;
  json_loads := fun r =>
    if bytes_eqb (content r) (bytes "<img>") then Ok img_result
    else if bytes_eqb (content r) (bytes "<p>") then Ok p_result
    else Raise JSONDecodeError;
  stdout_encodes := utf8_encodable;
  py_repr := fun _ => u "?"
|}.

Definition world : World unit := {| env := tt; log := []; console := [] |}.

End Sample.



(** A computation that does nothing to the world but print. *)
Definition prints_only {Env A : Type} (c : M Env A) : Prop :=
  forall w, exists ls, snd (c w) = say ls w.

(** ** A world where things go wrong

    No page can be fetched; "3-5m.html" is listed nowhere and cannot be
    opened, and a name with a NUL in it is refused before the file
    system is asked; the validator is down for the body "<p>" and echoes
    every other upload; the decoder knows two bodies, an object without
    "messages" and a result whose second message has no line number,
    and gives up on a third for being nested too deep. *)

Module Outage.

Definition files : list (str * list byte) :=
  [ (u "3-5d.html", Sample.bytes "<p>");
    (u "3-5k.html", Sample.bytes "nokey");
    (u "3-5l.html", Sample.bytes "noline");
    (u "3-5r.html", Sample.bytes "deep");
    (u "4ty.html", Sample.bytes "<p>") ].

Definition directory : list str := [u "4ty.html"; u "notes.txt"].

(** A name with a NUL in it: [open] raises [ValueError] for it. *)
Definition nul_name : str := u "3-5" ++ [0%N] ++ u ".html".

(** A name, as [os.listdir] can return it, and a description, as a JSON
    escape can produce it, with a lone surrogate in them. *)
Definition surrogate_name : str := u "3-5" ++ [56575%N] ++ u ".html".

Definition surrogate_message : json :=
  JObj [(u "message", JStr (u "Bad char " ++ [55296%N]));
        (u "type", JStr (u "error")); (u "lastLine", JInt 1)].

Definition nokey_result : json := JObj [(u "version", JInt 1)].

(** A message without "lastLine". *)
Definition no_line : json :=
  JObj [(u "type", JStr (u "non-document-error"));
        (u "message", JStr (u "Stray end tag."))].

(** A message that is one of the two notices and has no other field. *)
Definition bare_notice : json :=
  JObj [(u "message", JStr (u "The “name” attribute is obsolete. Use id."))].

Definition noline_result : json :=
  JObj [(u "messages", JArr [Sample.msg "error" 2 "Bad tag"; no_line;
                             Sample.msg "error" 9 "Never reached"])].

Definition platform : Platform unit := {|
  os_listdir := fun path e =>
    (if str_eqb path (u ".") then Ok directory else Raise OSError, e);
  open_rb := fun filename e =>
    (if existsb (N.eqb 0) filename then Raise ValueError
     else Sample.or_raise OSError (Sample.assoc filename files), e);
  http := fun rq e =>
    match rq with
    | GET _ _ => (Raise (OtherException (u "LocationParseError")), e)
    | POST _ [(_, part)] _ _ =>
        (if Sample.bytes_eqb (part_data part) (Sample.bytes "<p>")
         then Raise RequestException
         else Ok {| status_code := 200; content := part_data part |}, e)
    | POST _ _ _ _ => (Raise RequestException, e)
    end;
  json_loads := fun r =>
    if Sample.bytes_eqb (content r) (Sample.bytes "nokey")
    then Ok nokey_result
    else if Sample.bytes_eqb (content r) (Sample.bytes "noline")
    then Ok noline_result
    else if Sample.bytes_eqb (content r) (Sample.bytes "deep")
    then Raise RecursionError
    else Raise JSONDecodeError;
  stdout_encodes := utf8_encodable;
  py_repr := fun _ => u "?"
|}.

Definition world : World unit := {| env := tt; log := []; console := [] |}.

End Outage.

(** * Properties *)

Arguments u : simpl never.

(** ** Strings *)

Lemma str_eqb_refl (a : str) : str_eqb a a = true.
Proof.
  induction a as [|x a IH]; simpl; [reflexivity|].
  now rewrite N.eqb_refl, IH.
Qed.

Lemma str_eqb_eq (a b : str) : str_eqb a b = true <-> a = b.
Proof.
  split; [|intros ->; apply str_eqb_refl].
  revert b; induction a as [|x a IH]; intros [|y b]; simpl; try easy.
  rewrite andb_true_iff, N.eqb_eq. intros [-> H]. now rewrite (IH b H).
Qed.

Lemma startswith_iff (s p : str) :
  startswith s p = true <-> exists r, s = p ++ r.
Proof.
  revert s; induction p as [|c p IH]; intros s; simpl.
  - split; [intros _; now exists s | reflexivity].
  - destruct s as [|d s].
    + split; [discriminate | intros [r Hr]; discriminate].
    + rewrite andb_true_iff, N.eqb_eq, IH. split.
      * intros [-> [r ->]]. now exists r.
      * intros [r Hr]. injection Hr as -> ->. split; [reflexivity|now exists r].
Qed.

(** ** Worlds *)

Section Runs.
Context {Env : Type} {P : Platform Env}.

Lemma say_nil (w : World Env) : say [] w = w.
Proof. destruct w; unfold say; simpl. now rewrite app_nil_r. Qed.

Lemma say_say (a b : list str) (w : World Env) :
  say b (say a w) = say (a ++ b) w.
Proof. unfold say; simpl. now rewrite app_assoc. Qed.

Lemma bind_ok {A B} (c : M Env A) (k : A -> M Env B) w a w' :
  c w = (Ok a, w') -> bind c k w = k a w'.
Proof. unfold bind. now intros ->. Qed.

Lemma bind_raise {A B} (c : M Env A) (k : A -> M Env B) w e w' :
  c w = (Raise e, w') -> bind c k w = (Raise e, w').
Proof. unfold bind. now intros ->. Qed.

Lemma for_each_app {A} (l1 l2 : list A) (body : A -> M Env unit) w :
  for_each (l1 ++ l2) body w
  = bind (for_each l1 body) (fun _ => for_each l2 body) w.
Proof.
  revert w; induction l1 as [|x l1 IH]; intros w; simpl.
  - reflexivity.
  - unfold bind in *. destruct (body x w) as [[[]|e] w1]; [|reflexivity].
    apply IH.
Qed.

(** ** The message loop *)

Lemma report_message (m : json) (vm : ValidationMessage) (w : World Env) :
  as_message m = Some vm ->
  report m w = if noisy vm then (Ok tt, w) else print (diagnostic vm) w.
Proof.
  destruct m as [| | | | |l|d]; try discriminate. unfold as_message.
  destruct (dict_get (u "type") d) as [[| | | |t| |]|] eqn:Ht;
    try discriminate.
  destruct (dict_get (u "lastLine") d) as [[| |n| | | |]|] eqn:Hl;
    try discriminate.
  destruct (dict_get (u "message") d) as [[| | | |s| |]|] eqn:Hm;
    try discriminate.
  intros [= <-].
  unfold report, suppressed, format_message, getitem, startswith_, bind,
    ret, noisy, diagnostic, format_d, py_str.
  cbv beta iota delta [message type_ lastLine].
  rewrite Hm, Ht, Hl. cbv beta iota.
  destruct (startswith s IMG_ALT); cbv beta iota delta [orb negb].
  - reflexivity.
  - destruct (startswith s NAME_OBSOLETE); cbv beta iota.
    + reflexivity.
    + reflexivity.
Qed.

(** For well-formed messages the loop comes to printing, one after the
    other, the lines of those that are not suppressed. *)
Lemma report_loop_prints
    (ms : list json) (vms : list ValidationMessage) (w : World Env) :
  as_messages ms = Some vms ->
  for_each ms report w = for_each (diagnostics vms) print w.
Proof.
  revert vms w. induction ms as [|m ms IH]; intros vms w; simpl.
  - now intros [= <-].
  - destruct (as_message m) as [vm|] eqn:Hm; [|discriminate].
    destruct (as_messages ms) as [vms'|]; [|discriminate].
    intros [= <-]. unfold bind at 1. rewrite (report_message _ w Hm).
    unfold diagnostics; cbn [filter]. destruct (noisy vm); cbn [negb map].
    + now apply IH.
    + cbn [for_each]. unfold bind.
      destruct (print (diagnostic vm) w) as [[[]|x] w1]; [|reflexivity].
      now apply IH.
Qed.

Lemma print_ok (line : str) (w : World Env) :
  stdout_encodes line = true -> print line w = (Ok tt, say [line] w).
Proof. unfold print. now intros ->. Qed.

Lemma print_raise (line : str) (w : World Env) :
  stdout_encodes line = false -> print line w = (Raise UnicodeEncodeError, w).
Proof. unfold print. now intros ->. Qed.

Lemma print_all_ok (ls : list str) (w : World Env) :
  forallb stdout_encodes ls = true ->
  for_each ls print w = (Ok tt, say ls w).
Proof.
  revert w. induction ls as [|l ls IH]; intros w; cbn [forallb for_each].
  - intros _. unfold ret. now rewrite say_nil.
  - rewrite andb_true_iff. intros [Hl Hls].
    rewrite (bind_ok _ _ _ (print_ok l w Hl)), (IH _ Hls), say_say.
    reflexivity.
Qed.

Lemma print_all_stops (pre post : list str) (line : str) (w : World Env) :
  forallb stdout_encodes pre = true ->
  stdout_encodes line = false ->
  for_each (pre ++ line :: post) print w
  = (Raise UnicodeEncodeError, say pre w).
Proof.
  intros Hpre Hline. rewrite for_each_app.
  rewrite (bind_ok _ _ _ (print_all_ok pre w Hpre)). cbn [for_each].
  now rewrite (bind_raise _ _ _ (print_raise line _ Hline)).
Qed.

Lemma report_loop
    (ms : list json) (vms : list ValidationMessage) (w : World Env) :
  as_messages ms = Some vms ->
  forallb stdout_encodes (diagnostics vms) = true ->
  for_each ms report w = (Ok tt, say (diagnostics vms) w).
Proof.
  intros Hms Henc. rewrite (report_loop_prints ms w Hms).
  now apply print_all_ok.
Qed.

(** Claim C2, amended: for a sequence of well-formed messages, the
    message loop drops exactly those whose description starts with one
    of the two fixed notices and prints each of the others, in order,
    as [Type: <type>, Line: <lastLine>, Description: <message>], as
    long as the console can encode the lines: then it raises nothing
    and touches nothing but the console.  At the first line the console
    cannot encode the loop ends with [UnicodeEncodeError]: the lines
    before it are printed, that line and the later ones are not. *)
Theorem messages_filtered_and_formatted
    (ms : list json) (vms : list ValidationMessage) (w : World Env) :
  as_messages ms = Some vms ->
  (forallb stdout_encodes
     (map diagnostic
        (filter (fun vm =>
                   negb (startswith (message vm) IMG_ALT
                         || startswith (message vm) NAME_OBSOLETE))
                vms)) = true ->
   for_each ms report w
   = (Ok tt,
      say (map diagnostic
             (filter (fun vm =>
                        negb (startswith (message vm) IMG_ALT
                              || startswith (message vm) NAME_OBSOLETE))
                     vms)) w))
  /\ (forall pre line post,
        map diagnostic
          (filter (fun vm =>
                     negb (startswith (message vm) IMG_ALT
                           || startswith (message vm) NAME_OBSOLETE))
                  vms)
        = pre ++ line :: post ->
        forallb stdout_encodes pre = true ->
        stdout_encodes line = false ->
        for_each ms report w = (Raise UnicodeEncodeError, say pre w)).
Proof.
  intros Hms. split.
  - exact (report_loop ms w Hms).
  - intros pre line post Hd Hpre Hline.
    rewrite (report_loop_prints ms w Hms).
    change (diagnostics vms = pre ++ line :: post) in Hd. rewrite Hd.
    now apply print_all_stops.
Qed.

(** ** The validator client *)

Lemma skipn_length_app {A} (l l' : list A) : skipn (length l) (l ++ l') = l'.
Proof. induction l; simpl; auto. Qed.

(** A fresh temporary file that was written and rewound reads back
    what was written. *)
Lemma tempfile_read_back (bs : list byte) :
  f_read (f_seek 0 (f_write bs TemporaryFile)) = bs.
Proof.
  unfold f_read, f_seek, f_write, TemporaryFile; simpl.
  now rewrite skipn_nil, app_nil_r.
Qed.

(** [validate] on each of its two paths. *)
Lemma validate_remote_run (filename : str) (verbose : bool) (w : World Env) :
  is_remote filename = true ->
  validate filename verbose w
  = (r <- send (GET filename false) ;;
     r' <- send (upload filename (content r)) ;;
     Response_json r') w.
Proof.
  intros H. unfold validate. rewrite H.
  unfold requests_get, requests_post, bind, ret; cbn [map].
  destruct (send (GET filename false) w) as [[r|x] w1]; [|reflexivity].
  now rewrite tempfile_read_back.
Qed.

Lemma validate_local_run (filename : str) (verbose : bool) (w : World Env) :
  is_remote filename = false ->
  validate filename verbose w
  = (f <- open_ filename ;;
     r' <- send (upload filename (f_data f)) ;;
     Response_json r') w.
Proof.
  intros H. unfold validate. rewrite H.
  unfold requests_post, bind, ret, open_; cbn [map].
  destruct (open_rb filename (env w)) as [[body|] e]; reflexivity.
Qed.

Lemma is_remote_true (filename : str) :
  is_remote filename = true
  <-> startswith filename (u "http://") = true
      \/ startswith filename (u "https://") = true.
Proof. unfold is_remote. apply orb_true_iff. Qed.

Lemma is_remote_false (filename : str) :
  is_remote filename = false
  <-> startswith filename (u "http://") = false
      /\ startswith filename (u "https://") = false.
Proof. unfold is_remote. apply orb_false_iff. Qed.

Ltac run :=
  unfold issued, bind, send, open_, Response_json, lift, ret, raise;
  cbn [env log console fst snd].

Ltac answers :=
  repeat (match goal with
    | |- context [http ?rq ?e] =>
        let r := fresh "r" in let e' := fresh "e" in
        destruct (http rq e) as [[r|] e'] eqn:?
    | |- context [open_rb ?f ?e] =>
        let b := fresh "body" in let e' := fresh "e" in
        destruct (open_rb f e) as [[b|] e'] eqn:?
    | |- context [json_loads ?r] => destruct (json_loads r) eqn:?
    end; cbn [env log console fst snd f_data]);
  rewrite <- ?app_assoc, ?skipn_length_app, ?skipn_all;
  cbn [app map sent].

(** Claim C3: a target is treated as remote exactly when it begins with
    "http://" or "https://".  For such a target whose GET is answered,
    [validate] sends one GET of the target and then one POST to the
    validator, and nothing else; the bytes in the POST's "file" part
    are the body of the GET's response.  For any other target no GET
    is sent. *)
Theorem remote_get_then_post (filename : str) (verbose : bool) (w : World Env) :
  (startswith filename (u "http://") = true
   \/ startswith filename (u "https://") = true ->
   forall r e, http (GET filename false) (env w) = (Ok r, e) ->
     map sent (issued (validate filename verbose) w)
     = [GET filename false; upload filename (content r)])
  /\ (startswith filename (u "http://") = false
      /\ startswith filename (u "https://") = false ->
      forall x, In x (issued (validate filename verbose) w) ->
                is_GET x = false).
Proof.
  split.
  - intros H r e Hget. apply is_remote_true in H.
    unfold issued. rewrite validate_remote_run by exact H. run.
    rewrite Hget. answers; reflexivity.
  - intros H x. apply is_remote_false in H.
    unfold issued. rewrite validate_local_run by exact H. run.
    answers; cbn [In]; intros Hx; try contradiction;
      destruct Hx as [<-|[]]; reflexivity.
Qed.

(** Claim C4: for a local target that can be opened, [validate] sends
    no GET and exactly one request, a POST to the validator whose
    "file" part holds the bytes of the file. *)
Theorem local_post_only (filename : str) (verbose : bool) (w : World Env)
    (body : list byte) (e : Env) :
  is_remote filename = false ->
  open_rb filename (env w) = (Ok body, e) ->
  map sent (issued (validate filename verbose) w) = [upload filename body]
  /\ HTML_VALIDATOR_URL = u "http://validator.w3.org/nu/?out=json".
Proof.
  intros H Hopen. split; [|reflexivity].
  unfold issued. rewrite validate_local_run by exact H. run.
  rewrite Hopen. answers; reflexivity.
Qed.

Ltac which_exchange :=
  cbn [In] in *;
  repeat match goal with
    | H : False |- _ => destruct H
    | H : _ \/ _ |- _ => destruct H
    | H : {| sent := _; received := _ |} = _ |- _ =>
        injection H as ? ?; subst
    end.

(** Claim C5: when the validator answered the POST and the body of its
    response does not decode as JSON, [validate] ends with the
    exception the decoder raised; it returns no value, so no empty
    structure either. *)
Theorem non_json_response_raises
    (filename : str) (verbose : bool) (w : World Env)
    (url : str) (files : list (str * FilePart)) (data : list (str * str))
    (verify : bool) (r : Response) (x : exn) :
  In {| sent := POST url files data verify; received := Ok r |}
     (issued (validate filename verbose) w) ->
  json_loads r = Raise x ->
  fst (validate filename verbose w) = Raise x
  /\ forall v, fst (validate filename verbose w) <> Ok v.
Proof.
  intros Hin Hj. revert Hin. unfold issued.
  destruct (is_remote filename) eqn:H;
    [rewrite validate_remote_run by exact H
    |rewrite validate_local_run by exact H];
    run; answers; intros Hin; which_exchange;
    try discriminate; try congruence;
    (split; [congruence | discriminate]).
Qed.

(** Claim C8: [verbose] is never read: with either value the run is
    the same, exchange for exchange, and so is the value returned or
    the exception raised. *)
Theorem verbose_is_ignored (filename : str) (v1 v2 : bool) (w : World Env) :
  validate filename v1 w = validate filename v2 w.
Proof. reflexivity. Qed.

(** Claim C10: whatever the target, a POST that [validate] sends
    carries a single part, named "file", whose filename is the target
    string itself and whose declared content type is "text/html". *)
Theorem upload_names_the_target
    (filename : str) (verbose : bool) (w : World Env)
    (url : str) (files : list (str * FilePart)) (data : list (str * str))
    (verify : bool) (ans : result Response) :
  In {| sent := POST url files data verify; received := ans |}
     (issued (validate filename verbose) w) ->
  exists body,
    files = [(u "file", {| part_filename := filename;
                           part_data := body;
                           part_type := u "text/html" |})].
Proof.
  unfold issued.
  destruct (is_remote filename) eqn:H;
    [rewrite validate_remote_run by exact H
    |rewrite validate_local_run by exact H];
    run; answers; intros Hin; which_exchange; try discriminate;
    eexists; reflexivity.
Qed.

(** ** The batch loop *)

Lemma batch_stops_at_first_fault
    (pre post : list str) (f : str) (w w1 w2 : World Env) (e : exn) :
  batch pre w = (Ok tt, w1) ->
  process f w1 = (Raise e, w2) ->
  batch (pre ++ f :: post) w = (Raise e, w2).
Proof.
  intros Hpre Hf. unfold batch in *. rewrite for_each_app.
  rewrite (bind_ok _ _ _ Hpre). simpl. now rewrite (bind_raise _ _ _ Hf).
Qed.

(** What the driver does with a selected entry: the progress line and
    the validation, then the report. *)
Lemma process_announce_validate (f : str) (w : World Env) :
  selected f = true ->
  process f w
  = bind (print (u "Processing " ++ f) ;; validate f false)
      (fun v => messages <- getitem v (u "messages") ;;
                ms <- iter messages ;;
                for_each ms report) w.
Proof.
  intros Hsel. unfold process. rewrite Hsel. unfold bind.
  now destruct (print (u "Processing " ++ f) w) as [[[]|x] w'].
Qed.

(** Claim C6: if validating a selected file raises, the batch ends
    there with that exception: the world it leaves is the one in
    which the exception was raised, so no later entry of the
    enumeration is announced, validated or reported.  (The file is
    validated once its progress line is out; should printing that line
    raise, the batch ends there in the same way.) *)
Theorem one_fault_aborts_the_batch
    (pre post : list str) (f : str) (w w1 w2 : World Env) (e : exn) :
  batch pre w = (Ok tt, w1) ->
  selected f = true ->
  (print (u "Processing " ++ f) ;; validate f false) w1 = (Raise e, w2) ->
  batch (pre ++ f :: post) w = (Raise e, w2).
Proof.
  intros Hpre Hsel Hval. apply batch_stops_at_first_fault with w1; auto.
  rewrite (process_announce_validate f w1 Hsel).
  now rewrite (bind_raise _ _ _ Hval).
Qed.

Lemma validate_keeps_console (filename : str) (verbose : bool) (w : World Env) :
  console (snd (validate filename verbose w)) = console w.
Proof.
  destruct (is_remote filename) eqn:H;
    [rewrite validate_remote_run by exact H
    |rewrite validate_local_run by exact H];
    run; answers; reflexivity.
Qed.

Lemma as_result_inv (v : json) (vms : list ValidationMessage) :
  as_result v = Some vms ->
  exists d ms, v = JObj d /\ dict_get (u "messages") d = Some (JArr ms)
               /\ as_messages ms = Some vms.
Proof.
  destruct v as [| | | | | |d]; try discriminate. unfold as_result.
  destruct (dict_get (u "messages") d) as [[| | | | |ms|]|] eqn:Hd;
    try discriminate.
  intros H. now exists d, ms.
Qed.

Lemma process_selected (f : str) (w w1 : World Env) (v : json)
    (vms : list ValidationMessage) :
  selected f = true ->
  stdout_encodes (u "Processing " ++ f) = true ->
  validate f false (say [u "Processing " ++ f] w) = (Ok v, w1) ->
  as_result v = Some vms ->
  forallb stdout_encodes (diagnostics vms) = true ->
  process f w = (Ok tt, say (diagnostics vms) w1).
Proof.
  intros Hsel Henc Hval Hres Hd'.
  destruct (as_result_inv _ Hres) as (d & ms & -> & Hd & Hms).
  unfold process. rewrite Hsel.
  rewrite (bind_ok _ _ _ (print_ok _ w Henc)).
  rewrite (bind_ok _ _ _ Hval).
  unfold bind, getitem, iter, ret. rewrite Hd.
  now apply report_loop.
Qed.

Lemma process_not_selected (f : str) (w : World Env) :
  selected f = false -> process f w = (Ok tt, w).
Proof. intros H. unfold process. now rewrite H. Qed.

(** When every selected entry validates to a result of the data model
    and the console can encode the lines, the batch completes and
    prints, entry by entry, a progress line followed by the diagnostics
    that are not suppressed. *)
Lemma batch_transcript (resp : str -> list ValidationMessage)
    (l : list str) (w : World Env) :
  (forall f w', In f l -> selected f = true ->
     exists v, fst (validate f false w') = Ok v
               /\ as_result v = Some (resp f)) ->
  forallb stdout_encodes (flat_map (transcript resp) l) = true ->
  fst (batch l w) = Ok tt
  /\ console (snd (batch l w)) = console w ++ flat_map (transcript resp) l.
Proof.
  revert w. induction l as [|f l IH]; intros w Hresp Henc.
  - simpl. now rewrite app_nil_r.
  - assert (Hl : forall f0 w', In f0 l -> selected f0 = true ->
              exists v, fst (validate f0 false w') = Ok v
                        /\ as_result v = Some (resp f0))
      by (intros; apply Hresp; simpl; auto).
    cbn [flat_map] in Henc. rewrite forallb_app, andb_true_iff in Henc.
    destruct Henc as [Hf Henc]. unfold transcript at 1 in Hf.
    unfold batch; cbn [for_each flat_map]. unfold transcript at 1.
    destruct (selected f) eqn:Hsel.
    + cbn [forallb] in Hf. rewrite andb_true_iff in Hf.
      destruct Hf as [Hline Hdiag].
      destruct (Hresp f (say [u "Processing " ++ f] w) (or_introl eq_refl)
                  Hsel) as (v & Hv & Hres).
      pose proof (validate_keeps_console f false
                    (say [u "Processing " ++ f] w)) as Hc.
      destruct (validate f false (say [u "Processing " ++ f] w))
        as [rv w1] eqn:Hval.
      cbn [fst snd] in Hv, Hc. subst rv.
      rewrite (bind_ok _ _ _
                 (@process_selected f w w1 v (resp f) Hsel Hline Hval Hres
                    Hdiag)).
      destruct (IH (say (diagnostics (resp f)) w1) Hl Henc) as [H1 H2].
      split; [exact H1|]. unfold batch in H2. rewrite H2.
      cbn [say console]. rewrite Hc. cbn [say console].
      rewrite <- !app_assoc. reflexivity.
    + rewrite (bind_ok _ _ _ (@process_not_selected f w Hsel)).
      destruct (IH w Hl Henc) as [H1 H2]. split; [exact H1|exact H2].
Qed.

(** *** Steady computations *)

Lemma steady_pure {A} (c : M Env A) (r : result A) :
  (forall w, c w = (r, w)) -> steady c.
Proof.
  intros H. exists r, []. intros w. rewrite H; simpl.
  now rewrite app_nil_r.
Qed.

Lemma steady_print (line : str) : steady (print line).
Proof.
  unfold print. destruct (stdout_encodes line).
  - exists (Ok tt), [line]. intros w. now split.
  - exists (Raise UnicodeEncodeError), []. intros w.
    cbn [fst snd]. now rewrite app_nil_r.
Qed.

Lemma steady_bind {A B} (c : M Env A) (k : A -> M Env B) :
  steady c -> (forall a, steady (k a)) -> steady (bind c k).
Proof.
  intros (r & ls & Hc) Hk. destruct r as [a|e].
  - destruct (Hk a) as (r' & ls' & Hka). exists r', (ls ++ ls').
    intros w. destruct (Hc w) as [H1 H2]. unfold bind.
    destruct (c w) as [rc w1]; cbn [fst snd] in *. subst rc.
    destruct (Hka w1) as [H3 H4]. split; [exact H3|].
    now rewrite H4, H2, app_assoc.
  - exists (Raise e), ls. intros w. destruct (Hc w) as [H1 H2].
    unfold bind. destruct (c w) as [rc w1]; cbn [fst snd] in *.
    now subst rc.
Qed.

Lemma steady_for_each {A} (l : list A) (body : A -> M Env unit) :
  (forall x, steady (body x)) -> steady (for_each l body).
Proof.
  intros Hb. induction l as [|x l IH]; simpl.
  - now apply steady_pure with (Ok tt).
  - apply steady_bind; auto.
Qed.

Lemma steady_getitem (v : json) (k : str) : steady (@getitem Env v k).
Proof.
  destruct v as [| | | | | |d];
    try (now apply steady_pure with (Raise TypeError)).
  unfold getitem. destruct (dict_get k d) as [x|].
  - now apply steady_pure with (Ok x).
  - now apply steady_pure with (Raise (KeyError k)).
Qed.

Lemma steady_iter (v : json) : steady (@iter Env v).
Proof.
  destruct v; (eapply steady_pure; intros w; reflexivity).
Qed.

Lemma steady_startswith_ (v : json) (p : str) :
  steady (@startswith_ Env v p).
Proof.
  destruct v; (eapply steady_pure; intros w; reflexivity).
Qed.

Lemma steady_format_d (v : json) : steady (@format_d Env v).
Proof.
  destruct v as [|b|n|f|s|l|d];
    try (eapply steady_pure; intros w; reflexivity).
  unfold format_d. apply steady_bind.
  - eapply steady_pure; intros w; reflexivity.
  - intros n. eapply steady_pure; intros w; reflexivity.
Qed.

Lemma steady_report (m : json) : steady (report m).
Proof.
  unfold report, suppressed, format_message.
  repeat first
    [ apply steady_getitem | apply steady_startswith_ | apply steady_format_d
    | apply steady_print
    | apply steady_bind; [|intros ?]
    | match goal with |- steady (if ?b then _ else _) => destruct b end
    | eapply steady_pure; intros w; reflexivity ].
Qed.

(** When the outcome of validating [f] does not depend on the world,
    neither does what the driver does with [f]. *)
Lemma steady_process (f : str) :
  (selected f = true ->
   forall w1 w2, fst (validate f false w1) = fst (validate f false w2)) ->
  (exists w : World Env, True) ->
  steady (process f).
Proof.
  intros Hfix [w0 _]. unfold process.
  destruct (selected f); [|now apply steady_pure with (Ok tt)].
  apply steady_bind; [apply steady_print|intros _].
  apply steady_bind.
  - exists (fst (validate f false w0)), []. intros w. split.
    + now apply Hfix.
    + now rewrite validate_keeps_console, app_nil_r.
  - intros v. apply steady_bind; [apply steady_getitem|intros ms].
    apply steady_bind; [apply steady_iter|intros l].
    apply steady_for_each, steady_report.
Qed.

Lemma steady_printed {A} (c : M Env A) (w w0 : World Env) :
  steady c ->
  fst (c w) = fst (c w0)
  /\ console (snd (c w)) = console w ++ printed c w0.
Proof.
  intros (r & ls & H). destruct (H w) as [H1 H2], (H w0) as [H3 H4].
  split; [congruence|]. unfold printed.
  now rewrite H4, skipn_length_app.
Qed.

(** A batch of steady entries: it completes exactly when every entry
    does, and then prints the entries' lines one entry after the
    other. *)
Lemma batch_of_steady (l : list str) (w0 : World Env) :
  (forall f, In f l -> steady (process f)) ->
  forall w,
    (fst (batch l w) = Ok tt
     <-> forall f, In f l -> fst (process f w0) = Ok tt)
    /\ (fst (batch l w) = Ok tt ->
        console (snd (batch l w))
        = console w ++ flat_map (fun f => printed (process f) w0) l).
Proof.
  unfold batch. induction l as [|f l IH]; intros Hst w.
  - simpl. split; [split; [intros _ f []|reflexivity]|].
    intros _. now rewrite app_nil_r.
  - destruct (@steady_printed _ (process f) w w0 (Hst f (or_introl eq_refl)))
      as [Hr Hc].
    assert (Hl : forall f0, In f0 l -> steady (process f0))
      by (intros; apply Hst; simpl; auto).
    cbn [for_each flat_map]. unfold bind.
    destruct (process f w) as [[[]|e] w1] eqn:Hp; cbn [fst snd] in *.
    + destruct (IH Hl w1) as [Hiff Hcons]. split.
      * rewrite Hiff. split.
        -- intros H f0 [<-|Hin]; [now symmetry|now apply H].
        -- intros H f0 Hin. apply H. now right.
      * intros Hok. rewrite (Hcons Hok), Hc. now rewrite app_assoc.
    + split; [split|]; try discriminate.
      intros H. rewrite (H f (or_introl eq_refl)) in Hr. discriminate.
Qed.

(** Claim C7, amended: let the outcome of validating each selected name
    be fixed, whatever the state of the world.  If the run over one
    enumeration of the directory completes, the run over any
    permutation of it completes too, and the two print the same lines
    up to their order: the consoles are permutations of each other, so
    the sets of lines (diagnostics included) are equal. *)
Theorem enumeration_order_is_irrelevant
    (l1 l2 : list str) (w : World Env) :
  (forall f, In f l1 -> selected f = true ->
     forall w1 w2, fst (validate f false w1) = fst (validate f false w2)) ->
  Permutation l1 l2 ->
  fst (batch l1 w) = Ok tt ->
  fst (batch l2 w) = Ok tt
  /\ Permutation (printed (batch l1) w) (printed (batch l2) w)
  /\ (forall line, In line (printed (batch l1) w)
                   <-> In line (printed (batch l2) w)).
Proof.
  intros Hfix Hperm Hok1.
  assert (Hst1 : forall f, In f l1 -> steady (process f)).
  { intros f Hin. apply steady_process; [|now exists w].
    intros Hsel. now apply Hfix. }
  assert (Hst2 : forall f, In f l2 -> steady (process f)).
  { intros f Hin. apply Hst1.
    apply Permutation_in with l2; [now apply Permutation_sym|exact Hin]. }
  destruct (batch_of_steady l1 w Hst1 w) as [Hiff1 Hc1].
  destruct (batch_of_steady l2 w Hst2 w) as [Hiff2 Hc2].
  assert (Hok2 : fst (batch l2 w) = Ok tt).
  { apply Hiff2. intros f Hin. apply (proj1 Hiff1 Hok1).
    apply Permutation_in with l2; [now apply Permutation_sym|exact Hin]. }
  assert (HP : Permutation (printed (batch l1) w) (printed (batch l2) w)).
  { unfold printed. rewrite (Hc1 Hok1), (Hc2 Hok2), !skipn_length_app.
    now apply Permutation_flat_map. }
  split; [exact Hok2|]. split; [exact HP|]. intros line; split.
  - apply Permutation_in, HP.
  - apply Permutation_in, Permutation_sym, HP.
Qed.

End Runs.

(** ** The status of the fetched page *)

(** Claim C9: [validate] never looks at the status of the GET response.
    Rewrite the status of every GET response in any way ([restatus g]):
    the value returned or exception raised, the requests sent, the
    state the world is left in and the console are all unchanged; and
    whatever status the answer carries, its body is what the POST
    uploads. *)
Theorem get_status_is_not_inspected
    (Env : Type) (P : Platform Env) (g : Z -> Z)
    (filename : str) (verbose : bool) (w : World Env) :
  let plain := @validate Env P filename verbose w in
  let other := @validate Env (restatus g P) filename verbose w in
  fst other = fst plain
  /\ map sent (log (snd other)) = map sent (log (snd plain))
  /\ env (snd other) = env (snd plain)
  /\ console (snd other) = console (snd plain)
  /\ (is_remote filename = true ->
      forall r e, @http Env P (GET filename false) (env w) = (Ok r, e) ->
        map sent (issued (@validate Env (restatus g P) filename verbose) w)
        = [GET filename false; upload filename (content r)]).
Proof.
  cbv zeta. unfold issued. destruct (is_remote filename) eqn:H.
  - rewrite (@validate_remote_run Env P filename verbose w H).
    rewrite (@validate_remote_run Env (restatus g P) filename verbose w H).
    unfold bind, send, Response_json, lift, ret, raise, upload.
    cbn [http restatus env log console json_loads].
    destruct (@http Env P (GET filename false) (env w)) as [[r|x] e];
      cbn [content env log console fst snd].
    + destruct (@http Env P (POST HTML_VALIDATOR_URL
                  [(u "file", {| part_filename := filename;
                                 part_data := content r;
                                 part_type := u "text/html" |})]
                  [(u "out", u "json"); (u "showsource", u "yes")] false) e)
        as [[r'|x'] e']; cbn [env log console fst snd];
        [destruct (@json_loads Env P r') as [j|xj]|];
        cbn [env log console fst snd];
        rewrite <- ?app_assoc, ?skipn_length_app, ?map_app; cbn [app map sent];
        (repeat split; try reflexivity; intros _ r0 e0 [= <- <-];
         reflexivity).
    + repeat split; try reflexivity; try (now rewrite !map_app);
        intros _ r0 e0; discriminate.
  - rewrite (@validate_local_run Env P filename verbose w H).
    rewrite (@validate_local_run Env (restatus g P) filename verbose w H).
    unfold bind, send, open_, Response_json, lift, ret, raise, upload.
    cbn [http open_rb restatus env log console json_loads].
    repeat split; try reflexivity. discriminate.
Qed.

(** ** The file-name filter *)

Lemma endswith_length (s p : str) :
  endswith s p = true -> length p <= length s.
Proof.
  unfold endswith. rewrite andb_true_iff, Nat.leb_le. now intros [H _].
Qed.

(** A name that ends with ".html" has at least five characters, so its
    three-character slice never equals a two-character string: the
    entries "4t" and "5t" of the list match nothing. *)
Lemma short_prefixes_never_match (file_name p : str) :
  endswith file_name (u ".html") = true ->
  length p = 2 ->
  str_eqb (slice0 3 file_name) p = false.
Proof.
  intros Hend Hp. apply endswith_length in Hend.
  change (length (u ".html")) with 5 in Hend.
  destruct (str_eqb (slice0 3 file_name) p) eqn:E; [|reflexivity].
  apply str_eqb_eq in E. apply (f_equal (@length char)) in E.
  unfold slice0 in E. rewrite length_firstn in E. lia.
Qed.

(** What the filter of the code comes to. *)
Lemma selected_unfold (file_name : str) :
  selected file_name
  = endswith file_name (u ".html")
    && str_eqb (slice0 3 file_name) (u "3-5").
Proof.
  unfold selected, str_in; cbn [existsb].
  destruct (endswith file_name (u ".html")) eqn:Hend; [|reflexivity].
  rewrite (@short_prefixes_never_match file_name (u "4t") Hend eq_refl).
  rewrite (@short_prefixes_never_match file_name (u "5t") Hend eq_refl).
  now rewrite !orb_false_r.
Qed.

(** Claim C1, at the directory of the specification: the code keeps
    "3-5a.html" only, where the filter as the specification words it
    keeps "4ty.html" and "5tz.html" as well; run on the sample
    directory, the script posts a single file, "3-5a.html". *)
Theorem only_3_5_names_are_selected :
  filter selected
    [u "3-5a.html"; u "4ty.html"; u "5tz.html"; u "other.html"]
  = [u "3-5a.html"]
  /\ filter spec_selected
       [u "3-5a.html"; u "4ty.html"; u "5tz.html"; u "other.html"]
     = [u "3-5a.html"; u "4ty.html"; u "5tz.html"]
  /\ map sent (log (snd (main Sample.world)))
     = [upload (u "3-5a.html") (Sample.bytes "<img>")].
Proof. repeat split; vm_compute; reflexivity. Qed.

(** ** Runs in the sample world *)

(** The response of the specification's example: the "img" notice is
    dropped and one line is printed, for "Bad tag".  Followed by a
    message the console cannot encode, "Bad tag" is still printed and
    the loop ends there. *)
Lemma bad_tag_is_the_only_line :
  as_messages Sample.img_messages = Some Sample.img_records
  /\ for_each Sample.img_messages report Sample.world
     = (Ok tt,
        say [u "Type: error, Line: 2, Description: Bad tag"] Sample.world)
  /\ for_each (Sample.img_messages ++ [Outage.surrogate_message])
       report Sample.world
     = (Raise UnicodeEncodeError,
        say [u "Type: error, Line: 2, Description: Bad tag"] Sample.world).
Proof.
  split; [reflexivity|]. split.
  - exact (proj1 (@messages_filtered_and_formatted unit Sample.platform
                    Sample.img_messages Sample.img_records Sample.world
                    eq_refl) eq_refl).
  - exact (proj2 (@messages_filtered_and_formatted unit Sample.platform
                    (Sample.img_messages ++ [Outage.surrogate_message])
                    (Sample.img_records
                       ++ [ {| type_ := u "error"; lastLine := 1;
                               message := u "Bad char " ++ [55296%N] |} ])
                    Sample.world eq_refl)
             [u "Type: error, Line: 2, Description: Bad tag"]
             (u "Type: error, Line: 1, Description: Bad char " ++ [55296%N])
             [] eq_refl eq_refl eq_refl).
Defined.

(** Claim C2 as stated fails: of two well-formed messages that are not
    suppressed, the first has a lone surrogate in its description (the
    JSON escape \ud800), which a UTF-8 console cannot encode; the loop
    ends there with [UnicodeEncodeError] and the line for "Bad tag" is
    never printed. *)
Lemma a_lone_surrogate_stops_the_loop :
  as_messages [Outage.surrogate_message; Sample.msg "error" 2 "Bad tag"]
  = Some [ {| type_ := u "error"; lastLine := 1;
              message := u "Bad char " ++ [55296%N] |};
           {| type_ := u "error"; lastLine := 2; message := u "Bad tag" |} ]
  /\ noisy {| type_ := u "error"; lastLine := 2; message := u "Bad tag" |}
     = false
  /\ for_each [Outage.surrogate_message; Sample.msg "error" 2 "Bad tag"]
       report Sample.world
     = (Raise UnicodeEncodeError, Sample.world)
  /\ ~ In (u "Type: error, Line: 2, Description: Bad tag")
         (printed
            (for_each [Outage.surrogate_message;
                       Sample.msg "error" 2 "Bad tag"] report)
            Sample.world).
Proof.
  split; [reflexivity|]. split; [reflexivity|]. split; [reflexivity|].
  intros H. exact H.
Qed.

(** The remote page answers 404; its body is fetched once and posted
    once. *)
Lemma not_found_page_is_uploaded :
  startswith Sample.page_url (u "https://") = true
  /\ http (GET Sample.page_url false) tt = (Ok Sample.not_found, tt)
  /\ map sent (issued (validate Sample.page_url false) Sample.world)
     = [GET Sample.page_url false;
        upload Sample.page_url (Sample.bytes "<h1>Not Found</h1>")].
Proof.
  split; [reflexivity|]. split; [reflexivity|].
  exact (proj1 (@remote_get_then_post unit Sample.platform
                  Sample.page_url false Sample.world)
           (or_intror eq_refl) Sample.not_found tt eq_refl).
Defined.

(** A local file is read and posted; nothing is fetched. *)
Lemma local_file_is_posted :
  is_remote (u "3-5a.html") = false
  /\ open_rb (u "3-5a.html") tt = (Ok (Sample.bytes "<img>"), tt)
  /\ map sent (issued (validate (u "3-5a.html") false) Sample.world)
     = [upload (u "3-5a.html") (Sample.bytes "<img>")].
Proof.
  split; [reflexivity|]. split; [reflexivity|].
  exact (proj1 (@local_post_only unit Sample.platform (u "3-5a.html") false
                  Sample.world (Sample.bytes "<img>") tt eq_refl eq_refl)).
Defined.

(** The stand-in validator echoes "junk", which does not decode. *)
Lemma junk_answer_raises :
  json_loads {| status_code := 200; content := Sample.bytes "junk" |}
  = Raise JSONDecodeError
  /\ fst (validate (u "3-5c.html") false Sample.world)
     = Raise JSONDecodeError.
Proof.
  split; [reflexivity|].
  exact (proj1 (@non_json_response_raises unit Sample.platform
                  (u "3-5c.html") false Sample.world
                  HTML_VALIDATOR_URL
                  [(u "file", {| part_filename := u "3-5c.html";
                                 part_data := Sample.bytes "junk";
                                 part_type := u "text/html" |})]
                  [(u "out", u "json"); (u "showsource", u "yes")] false
                  {| status_code := 200; content := Sample.bytes "junk" |}
                  JSONDecodeError (or_introl eq_refl) eq_refl)).
Defined.

(** The POST for "3-5a.html" names the file as given. *)
Lemma sample_post_names_its_file :
  exists body,
    [(u "file", {| part_filename := u "3-5a.html";
                   part_data := Sample.bytes "<img>";
                   part_type := u "text/html" |})]
    = [(u "file", {| part_filename := u "3-5a.html";
                     part_data := body;
                     part_type := u "text/html" |})].
Proof.
  exact (@upload_names_the_target unit Sample.platform
           (u "3-5a.html") false Sample.world
           HTML_VALIDATOR_URL
           [(u "file", {| part_filename := u "3-5a.html";
                          part_data := Sample.bytes "<img>";
                          part_type := u "text/html" |})]
           [(u "out", u "json"); (u "showsource", u "yes")] false
           (Ok {| status_code := 200; content := Sample.bytes "<img>" |})
           (or_introl eq_refl)).
Defined.

(** "3-5c.html" cannot be validated: "3-5b.html", listed after it, is
    never announced. *)
Lemma junk_file_stops_the_batch :
  selected (u "3-5c.html") = true
  /\ batch ([u "3-5a.html"] ++ u "3-5c.html" :: [u "3-5b.html"]) Sample.world
     = (Raise JSONDecodeError,
        {| env := tt;
           log := log (snd (batch [u "3-5a.html"; u "3-5c.html"]
                              Sample.world));
           console := [u "Processing 3-5a.html";
                       u "Type: error, Line: 2, Description: Bad tag";
                       u "Processing 3-5c.html"] |}).
Proof.
  split; [reflexivity|].
  exact (@one_fault_aborts_the_batch unit Sample.platform
           [u "3-5a.html"] [u "3-5b.html"] (u "3-5c.html")
           Sample.world (snd (batch [u "3-5a.html"] Sample.world)) _
           JSONDecodeError eq_refl eq_refl eq_refl).
Defined.

(** In the sample world the outcome of validating a name is fixed. *)
Lemma sample_outcomes_are_fixed (f : str) (w1 w2 : World unit) :
  fst (validate f false w1) = fst (validate f false w2).
Proof.
  destruct (is_remote f) eqn:H.
  - rewrite !(@validate_remote_run unit Sample.platform f false _ H).
    unfold bind, send, Response_json, ret, raise, upload.
    cbn [http Sample.platform env log console].
    destruct (str_eqb f Sample.page_url); reflexivity.
  - rewrite !(@validate_local_run unit Sample.platform f false _ H).
    unfold bind, send, open_, Response_json, ret, raise, upload.
    cbn [http open_rb Sample.platform env log console].
    destruct (Sample.assoc f Sample.files) as [body|]; [|reflexivity].
    cbn [f_data part_data].
    destruct (json_loads {| status_code := 200; content := body |});
      reflexivity.
Qed.

(** Two files that validate, listed in either order. *)
Lemma swapped_listing_prints_the_same :
  fst (batch [u "3-5a.html"; u "3-5b.html"] Sample.world) = Ok tt
  /\ Permutation
       (printed (batch [u "3-5a.html"; u "3-5b.html"]) Sample.world)
       (printed (batch [u "3-5b.html"; u "3-5a.html"]) Sample.world).
Proof.
  split; [reflexivity|].
  exact (proj1 (proj2
    (@enumeration_order_is_irrelevant unit Sample.platform
       [u "3-5a.html"; u "3-5b.html"] [u "3-5b.html"; u "3-5a.html"]
       Sample.world
       (fun f _ _ => sample_outcomes_are_fixed f)
       (perm_swap _ _ _) eq_refl))).
Defined.

(** Claim C7 as stated fails: with a fixed answer for every name, one
    of them not JSON, the diagnostic for "Bad tag" is printed when
    "3-5a.html" is listed before "3-5c.html" and is not when it is
    listed after. *)
Lemma a_fault_makes_the_order_matter :
  (forall (f : str) (w1 w2 : World unit),
     fst (validate f false w1) = fst (validate f false w2))
  /\ Permutation [u "3-5a.html"; u "3-5c.html"]
                 [u "3-5c.html"; u "3-5a.html"]
  /\ ~ (forall line,
          In line (printed (batch [u "3-5a.html"; u "3-5c.html"])
                     Sample.world)
          <-> In line (printed (batch [u "3-5c.html"; u "3-5a.html"])
                         Sample.world)).
Proof.
  split; [exact sample_outcomes_are_fixed|]. split; [apply perm_swap|].
  intros H.
  specialize (H (u "Type: error, Line: 2, Description: Bad tag")).
  vm_compute in H. destruct H as [H _].
  destruct (H (or_intror (or_introl eq_refl))) as [E|[]]. discriminate E.
Qed.

(** Had the page answered 200 instead of 404, nothing would differ. *)
Lemma status_200_or_404 :
  fst (@validate unit (restatus (fun _ => 200%Z) Sample.platform)
         Sample.page_url false Sample.world)
  = fst (validate Sample.page_url false Sample.world).
Proof.
  exact (proj1 (@get_status_is_not_inspected unit Sample.platform
                  (fun _ => 200%Z) Sample.page_url false Sample.world)).
Defined.

(** * Further properties of the client and the driver *)

Section Client.
Context {Env : Type} {P : Platform Env}.

Ltac paths f H :=
  destruct (is_remote f) eqn:H;
  [rewrite validate_remote_run by exact H
  |rewrite validate_local_run by exact H].

Ltac step :=
  unfold issued, bind, send, open_, Response_json, lift, ret, raise;
  cbn [env log console fst snd].

Ltac cases :=
  repeat (match goal with
    | |- context [http ?rq ?e] =>
        let r := fresh "r" in let e' := fresh "e" in
        destruct (http rq e) as [[r|] e'] eqn:?
    | |- context [open_rb ?f ?e] =>
        let b := fresh "body" in let e' := fresh "e" in
        destruct (open_rb f e) as [[b|] e'] eqn:?
    | |- context [json_loads ?r] => destruct (json_loads r) eqn:?
    end; cbn [env log console fst snd f_data]);
  rewrite <- ?app_assoc, ?skipn_length_app, ?skipn_all;
  cbn [app map sent length].

(** Property X2: whatever happens, [validate] sends at most a GET of the target
    followed by at most one POST of the target to the validator, both
    without certificate verification: nothing at all or the POST alone
    for a local target, the GET alone or the GET and the POST for a
    remote one. *)
Theorem validate_requests_shape
    (filename : str) (verbose : bool) (w : World Env) :
  (is_remote filename = false
   /\ (map sent (issued (validate filename verbose) w) = []
       \/ exists body,
            map sent (issued (validate filename verbose) w)
            = [upload filename body]))
  \/ (is_remote filename = true
      /\ (map sent (issued (validate filename verbose) w)
          = [GET filename false]
          \/ exists body,
               map sent (issued (validate filename verbose) w)
               = [GET filename false; upload filename body])).
Proof.
  unfold issued. paths filename H; [right|left]; (split; [reflexivity|]);
    step; cases; eauto.
Qed.

(** Property X3: [validate] prints nothing and only appends to the log of exchanges,
    at most two of them. *)
Theorem validate_only_appends_exchanges
    (filename : str) (verbose : bool) (w : World Env) :
  console (snd (validate filename verbose w)) = console w
  /\ log (snd (validate filename verbose w))
     = log w ++ issued (validate filename verbose) w
  /\ length (issued (validate filename verbose) w) <= 2.
Proof.
  unfold issued. paths filename H; step; cases;
    rewrite ?app_nil_r; repeat split; auto.
Qed.

(** Property X4: a local target that cannot be opened: [validate] raises
    what [open] raised ([OSError] for a missing file, [ValueError] for a
    name with a NUL in it) and sends nothing. *)
Theorem failed_open_is_propagated
    (filename : str) (verbose : bool) (w : World Env) (x : exn) (e : Env) :
  is_remote filename = false ->
  open_rb filename (env w) = (Raise x, e) ->
  validate filename verbose w
  = (Raise x, {| env := e; log := log w; console := console w |}).
Proof.
  intros H Hopen. rewrite validate_local_run by exact H.
  unfold bind, open_. now rewrite Hopen.
Qed.

(** Property X5: a remote target whose GET raises: [validate] raises
    that exception and the POST is never sent. *)
Theorem failed_get_sends_no_post
    (filename : str) (verbose : bool) (w : World Env) (x : exn) (e : Env) :
  is_remote filename = true ->
  http (GET filename false) (env w) = (Raise x, e) ->
  validate filename verbose w
  = (Raise x,
     {| env := e;
        log := log w
               ++ [{| sent := GET filename false; received := Raise x |}];
        console := console w |}).
Proof.
  intros H Hget. rewrite validate_remote_run by exact H.
  unfold bind, send. now rewrite Hget.
Qed.

Ltac whose :=
  cbn [In] in *;
  repeat match goal with
    | H : False |- _ => destruct H
    | H : _ \/ _ |- _ => destruct H
    | H : {| sent := _; received := _ |} = _ |- _ =>
        injection H as ? ?; subst
    end.

(** Property X6: if the POST is not answered, [validate] raises the
    exception the call raised, on either path. *)
Theorem unanswered_post_raises
    (filename : str) (verbose : bool) (w : World Env)
    (url : str) (files : list (str * FilePart)) (data : list (str * str))
    (verify : bool) (x : exn) :
  In {| sent := POST url files data verify; received := Raise x |}
     (issued (validate filename verbose) w) ->
  fst (validate filename verbose w) = Raise x.
Proof.
  unfold issued. paths filename H; step; cases; intros Hin; whose;
    try discriminate; reflexivity.
Qed.

(** Property X7: what [validate] returns is the decoded body of the validator's
    answer to the POST, as it is: the POST is the last exchange of the
    call and its response decodes to the value returned. *)
Theorem validate_returns_decoded_answer
    (filename : str) (verbose : bool) (w : World Env) (v : json) :
  fst (validate filename verbose w) = Ok v ->
  exists pre body r,
    issued (validate filename verbose) w
    = pre ++ [{| sent := upload filename body; received := Ok r |}]
    /\ json_loads r = Ok v.
Proof.
  unfold issued. paths filename H; step; cases; intros [= <-].
  - eexists [_], _, _. split; [reflexivity|eassumption].
  - eexists [], _, _. split; [reflexivity|eassumption].
Qed.

(** Property X8: for a local target [validate] raises nothing of its own
    and catches nothing: an exception that escapes it is the one
    [open] raised, with nothing sent; or the one the POST raised; or
    the one [json()] raised on the validator's answer to the POST. *)
Theorem local_validate_raises_only
    (filename : str) (verbose : bool) (w : World Env) (x : exn) :
  is_remote filename = false ->
  fst (validate filename verbose w) = Raise x ->
  (issued (validate filename verbose) w = []
   /\ exists e, open_rb filename (env w) = (Raise x, e))
  \/ (exists body,
        issued (validate filename verbose) w
        = [{| sent := upload filename body; received := Raise x |}])
  \/ (exists body r,
        issued (validate filename verbose) w
        = [{| sent := upload filename body; received := Ok r |}]
        /\ json_loads r = Raise x).
Proof.
  intros H. unfold issued. rewrite validate_local_run by exact H.
  step; cases; intros [= <-].
  - right; right. eexists _, _. split; [reflexivity|eassumption].
  - right; left. now eexists.
  - left. split; [reflexivity|]. now eexists.
Qed.

End Client.

(** ** Which names are selected *)

Lemma three_five_prefix (file_name : str) :
  str_eqb (slice0 3 file_name) (u "3-5") = true
  <-> exists rest, file_name = u "3-5" ++ rest.
Proof.
  rewrite str_eqb_eq. unfold slice0. split.
  - destruct file_name as [|a [|b [|c rest]]]; try discriminate.
    cbn [firstn]. intros [= -> -> ->]. now exists rest.
  - intros [rest ->]. reflexivity.
Qed.

Lemma endswith_iff (s p : str) :
  endswith s p = true <-> exists r, s = r ++ p.
Proof.
  unfold endswith. rewrite andb_true_iff, Nat.leb_le, str_eqb_eq. split.
  - intros [_ H]. exists (firstn (length s - length p) s).
    transitivity (firstn (length s - length p) s
                  ++ skipn (length s - length p) s);
      [symmetry; apply firstn_skipn | f_equal; exact H].
  - intros [r ->]. rewrite length_app. split; [lia|].
    replace (length r + length p - length p) with (length r) by lia.
    apply skipn_length_app.
Qed.

(** Property X1: the filter, for every name: a name is selected exactly when it is
    "3-5", then anything, then ".html"; no other beginning is
    accepted. *)
Theorem selected_iff (file_name : str) :
  selected file_name = true
  <-> exists mid, file_name = u "3-5" ++ mid ++ u ".html".
Proof.
  rewrite selected_unfold, andb_true_iff, three_five_prefix, endswith_iff.
  split.
  - intros [[r Hr] [rest Hrest]]. subst file_name.
    change (u "3-5") with [51; 45; 53]%N in *.
    change (u ".html") with [46; 104; 116; 109; 108]%N in *.
    destruct r as [|a [|b [|c mid]]]; cbn [app] in Hrest;
      try discriminate.
    injection Hrest as -> -> -> _. now exists mid.
  - intros [mid ->]. split.
    + exists (u "3-5" ++ mid). now rewrite app_assoc.
    + now exists (mid ++ u ".html").
Qed.

Lemma selected_local (file_name : str) :
  selected file_name = true -> is_remote file_name = false.
Proof.
  rewrite selected_unfold, andb_true_iff, three_five_prefix.
  intros [_ [rest ->]]. reflexivity.
Qed.

Section Driver.
Context {Env : Type} {P : Platform Env}.

(** *** Computations that only print *)

Lemma prints_only_pure {A} (c : M Env A) :
  (forall w, snd (c w) = w) -> prints_only c.
Proof. intros H w. exists []. now rewrite H, say_nil. Qed.

Lemma prints_only_print (line : str) : prints_only (print line).
Proof.
  intros w. unfold print. destruct (stdout_encodes line).
  - now exists [line].
  - exists []. now rewrite say_nil.
Qed.

Lemma prints_only_bind {A B} (c : M Env A) (k : A -> M Env B) :
  prints_only c -> (forall a, prints_only (k a)) -> prints_only (bind c k).
Proof.
  intros Hc Hk w. destruct (Hc w) as [ls H]. unfold bind.
  destruct (c w) as [[a|e] w1]; cbn [snd] in *; subst w1.
  - destruct (Hk a (say ls w)) as [ls' H']. exists (ls ++ ls').
    now rewrite H', say_say.
  - now exists ls.
Qed.

Lemma prints_only_for_each {A} (l : list A) (body : A -> M Env unit) :
  (forall x, prints_only (body x)) -> prints_only (for_each l body).
Proof.
  intros Hb. induction l as [|x l IH]; simpl.
  - now apply prints_only_pure.
  - apply prints_only_bind; auto.
Qed.

Lemma prints_only_getitem (v : json) (k : str) : prints_only (@getitem Env v k).
Proof.
  apply prints_only_pure. intros w. destruct v; try reflexivity.
  unfold getitem. now destruct (dict_get k d).
Qed.

Lemma prints_only_iter (v : json) : prints_only (@iter Env v).
Proof. apply prints_only_pure. intros w. now destruct v. Qed.

Lemma prints_only_startswith_ (v : json) (p : str) :
  prints_only (@startswith_ Env v p).
Proof. apply prints_only_pure. intros w. now destruct v. Qed.

Lemma prints_only_format_d (v : json) : prints_only (@format_d Env v).
Proof.
  apply prints_only_pure. intros w. destruct v as [|b|n|f|s|l|d];
    try reflexivity.
  unfold format_d, bind, lift, ret. now destruct (float_to_int f).
Qed.

Lemma prints_only_report (m : json) : prints_only (report m).
Proof.
  unfold report, suppressed, format_message.
  repeat first
    [ apply prints_only_getitem | apply prints_only_startswith_
    | apply prints_only_format_d | apply prints_only_print
    | apply prints_only_bind; [|intros ?]
    | match goal with
      | |- prints_only (if ?b then _ else _) => destruct b
      end
    | apply prints_only_pure; intros w; reflexivity ].
Qed.

(** What the driver does with a validation result only prints. *)
Lemma prints_only_reporting (v : json) :
  prints_only (messages <- getitem v (u "messages") ;;
               ms <- iter messages ;;
               for_each ms report).
Proof.
  apply prints_only_bind; [apply prints_only_getitem|intros messages].
  apply prints_only_bind; [apply prints_only_iter|intros ms].
  apply prints_only_for_each, prints_only_report.
Qed.

(** *** One message *)

Lemma bind_keeps_world {A B} (c : M Env A) (k : A -> M Env B) :
  (forall w, snd (c w) = w) -> (forall a w, snd (k a w) = w) ->
  forall w, snd (bind c k w) = w.
Proof.
  intros Hc Hk w. unfold bind. specialize (Hc w).
  destruct (c w) as [[a|e] w1]; cbn [snd] in Hc; subst w1; auto.
Qed.

Lemma getitem_keeps_world (v : json) (k : str) (w : World Env) :
  snd (getitem v k w) = w.
Proof.
  destruct v; try reflexivity. unfold getitem. now destruct (dict_get k d).
Qed.

Lemma startswith_keeps_world (v : json) (p : str) (w : World Env) :
  snd (startswith_ v p w) = w.
Proof. now destruct v. Qed.

Lemma format_d_keeps_world (v : json) (w : World Env) :
  snd (format_d v w) = w.
Proof.
  destruct v as [|b|n|f|s|l|d]; try reflexivity.
  unfold format_d, bind, lift, ret. now destruct (float_to_int f).
Qed.

Lemma suppressed_keeps_world (m : json) (w : World Env) :
  snd (suppressed m w) = w.
Proof.
  revert w. unfold suppressed.
  apply bind_keeps_world; [apply getitem_keeps_world|intros a].
  apply bind_keeps_world; [apply startswith_keeps_world|intros b].
  destruct b; [reflexivity|].
  apply bind_keeps_world; [apply getitem_keeps_world|intros a'].
  apply startswith_keeps_world.
Qed.

Lemma format_message_keeps_world (m : json) (w : World Env) :
  snd (format_message m w) = w.
Proof.
  revert w. unfold format_message.
  apply bind_keeps_world; [apply getitem_keeps_world|intros t].
  apply bind_keeps_world; [apply getitem_keeps_world|intros l].
  apply bind_keeps_world; [apply format_d_keeps_world|intros d].
  apply bind_keeps_world; [apply getitem_keeps_world|intros msg].
  reflexivity.
Qed.

Lemma report_raise_keeps_world (m : json) (w w' : World Env) (e : exn) :
  report m w = (Raise e, w') -> w' = w.
Proof.
  unfold report, bind.
  pose proof (suppressed_keeps_world m w) as Hs.
  destruct (suppressed m w) as [[s|e0] w1]; cbn [snd] in Hs; subst w1.
  - destruct (negb s); [|discriminate].
    pose proof (format_message_keeps_world m w) as Hf.
    destruct (format_message m w) as [[line|e1] w2]; cbn [snd] in Hf;
      subst w2; [|now intros [= _ ->]].
    unfold print. destruct (stdout_encodes line); [discriminate|].
    now intros [= _ ->].
  - now intros [= _ ->].
Qed.

(** Property X9: a message cannot be half reported: when reporting it raises,
    nothing was printed for it and the world is as before. *)
Theorem failed_report_prints_nothing
    (m : json) (w w' : World Env) (e : exn) :
  report m w = (Raise e, w') -> w' = w.
Proof. apply report_raise_keeps_world. Qed.

(** Property X10: a message whose description starts with one of the two notices is
    skipped whatever else it holds: its type and line number are not
    looked up, so they may be missing. *)
Theorem noisy_message_is_skipped_unread
    (d : list (str * json)) (s : str) (w : World Env) :
  dict_get (u "message") d = Some (JStr s) ->
  startswith s IMG_ALT || startswith s NAME_OBSOLETE = true ->
  report (JObj d) w = (Ok tt, w).
Proof.
  intros Hm Hs.
  unfold report, suppressed, getitem, startswith_, bind, ret.
  rewrite Hm. cbv beta iota.
  destruct (startswith s IMG_ALT); cbv beta iota; [reflexivity|].
  cbn [orb] in Hs. rewrite Hs. reflexivity.
Qed.

(** Property X11: a message that is to be reported and has a type but no "lastLine"
    makes the driver raise [KeyError] for that key; nothing is printed
    for it. *)
Theorem missing_line_number_raises
    (d : list (str * json)) (s : str) (t : json) (w : World Env) :
  dict_get (u "message") d = Some (JStr s) ->
  startswith s IMG_ALT || startswith s NAME_OBSOLETE = false ->
  dict_get (u "type") d = Some t ->
  dict_get (u "lastLine") d = None ->
  report (JObj d) w = (Raise (KeyError (u "lastLine")), w).
Proof.
  intros Hm Hs Ht Hl. apply orb_false_iff in Hs as [H1 H2].
  unfold report, suppressed, format_message, getitem, startswith_, bind,
    ret, raise.
  rewrite Hm, Ht, Hl. cbv beta iota. rewrite H1. cbv beta iota.
  rewrite H2. reflexivity.
Qed.

(** Property X12: the message loop stops at the first message it cannot
    report: the diagnostics of the well-formed messages before it, all
    of which the console could take, stay printed; nothing is printed
    for it or for any message after it. *)
Theorem message_loop_stops_at_bad_message
    (before after : list json) (m : json) (vms : list ValidationMessage)
    (w w' : World Env) (e : exn) :
  as_messages before = Some vms ->
  forallb stdout_encodes (diagnostics vms) = true ->
  report m (say (diagnostics vms) w) = (Raise e, w') ->
  for_each (before ++ m :: after) report w
  = (Raise e, say (diagnostics vms) w).
Proof.
  intros Hb Henc Hm. rewrite for_each_app.
  rewrite (bind_ok _ _ _ (report_loop before w Hb Henc)). cbn [for_each].
  rewrite (bind_raise _ _ _ Hm).
  now rewrite (report_raise_keeps_world _ _ Hm).
Qed.

(** *** One directory entry *)

Lemma validate_local_log (f : str) (v : bool) (w : World Env) :
  is_remote f = false ->
  exists xs,
    log (snd (validate f v w)) = log w ++ xs
    /\ (xs = []
        \/ exists body ans,
             xs = [{| sent := upload f body; received := ans |}])
    /\ (forall j, fst (validate f v w) = Ok j ->
        exists body ans,
          xs = [{| sent := upload f body; received := ans |}]).
Proof.
  intros H. rewrite validate_local_run by exact H.
  unfold bind, send, open_, Response_json, ret, raise.
  destruct (open_rb f (env w)) as [[body|] e]; cbn [env log console f_data].
  - destruct (http (upload f body) e) as [[r|] e'];
      [destruct (json_loads r)|]; cbn [fst snd log];
      (eexists; split; [reflexivity|]; split; [right|intros ? ?]; eauto).
  - exists []. cbn [fst snd log]. rewrite app_nil_r.
    split; [reflexivity|]. split; [now left|discriminate].
Qed.

Lemma process_unprintable (f : str) (w : World Env) :
  selected f = true ->
  stdout_encodes (u "Processing " ++ f) = false ->
  process f w = (Raise UnicodeEncodeError, w).
Proof.
  intros Hsel Henc. unfold process. rewrite Hsel.
  now rewrite (bind_raise _ _ _ (print_raise _ w Henc)).
Qed.

Lemma process_printable (f : str) (w : World Env) :
  selected f = true ->
  stdout_encodes (u "Processing " ++ f) = true ->
  exists xs ls,
    log (snd (process f w)) = log w ++ xs
    /\ console (snd (process f w)) = console w ++ (u "Processing " ++ f) :: ls
    /\ (xs = []
        \/ exists body ans,
             xs = [{| sent := upload f body; received := ans |}])
    /\ (fst (process f w) = Ok tt ->
        exists body ans,
          xs = [{| sent := upload f body; received := ans |}]).
Proof.
  intros Hsel Henc.
  set (w0 := say [u "Processing " ++ f] w).
  assert (Hp : process f w
               = bind (validate f false)
                   (fun v => messages <- getitem v (u "messages") ;;
                             ms <- iter messages ;;
                             for_each ms report) w0)
    by (unfold process; rewrite Hsel;
        now rewrite (bind_ok _ _ _ (print_ok _ w Henc))).
  rewrite Hp. clear Hp.
  destruct (validate_local_log f false w0 (selected_local f Hsel))
    as (xs & Hlog & Hshape & Hok).
  pose proof (validate_keeps_console f false w0) as Hcons.
  destruct (validate f false w0) as [[v|e] w1] eqn:Hv; cbn [fst snd] in *.
  - rewrite (bind_ok _ _ _ Hv).
    destruct (prints_only_reporting v w1) as [ls Hls].
    exists xs, ls. rewrite Hls. cbn [say log console].
    rewrite Hlog, Hcons. cbn [w0 say log console].
    rewrite <- app_assoc. repeat split; eauto.
  - rewrite (bind_raise _ _ _ Hv). exists xs, []. cbn [fst snd].
    rewrite Hlog, Hcons. cbn [w0 say log console].
    repeat split; auto. discriminate.
Qed.

Lemma process_log (f : str) (w : World Env) :
  selected f = true ->
  exists xs,
    log (snd (process f w)) = log w ++ xs
    /\ (xs = []
        \/ exists body ans,
             xs = [{| sent := upload f body; received := ans |}])
    /\ (fst (process f w) = Ok tt ->
        exists body ans,
          xs = [{| sent := upload f body; received := ans |}]).
Proof.
  intros Hsel. destruct (stdout_encodes (u "Processing " ++ f)) eqn:Henc.
  - destruct (process_printable f w Hsel Henc) as (xs & ls & H1 & _ & H2 & H3).
    now exists xs.
  - rewrite (process_unprintable f w Hsel Henc). exists []. cbn [fst snd].
    rewrite app_nil_r. split; [reflexivity|]. split; [now left|discriminate].
Qed.

(** Property X13: for every selected entry the progress line comes
    first.  If the console can encode it, it is printed whatever
    becomes of the validation, and anything else the entry prints comes
    after it.  If the console cannot (a name with a lone surrogate in
    it), the entry ends with [UnicodeEncodeError] before anything is
    opened, sent or printed. *)
Theorem progress_line_comes_first (f : str) (w : World Env) :
  selected f = true ->
  (stdout_encodes (u "Processing " ++ f) = true ->
   exists ls,
     console (snd (process f w)) = console w ++ (u "Processing " ++ f) :: ls)
  /\ (stdout_encodes (u "Processing " ++ f) = false ->
      process f w = (Raise UnicodeEncodeError, w)).
Proof.
  intros Hsel. split; intros Henc.
  - destruct (process_printable f w Hsel Henc) as (xs & ls & _ & H & _).
    now exists ls.
  - now apply process_unprintable.
Qed.

(** Property X14: a validator result that is an object without
    "messages": the driver raises [KeyError] for that key, after the
    progress line and the upload, and reports nothing. *)
Theorem result_without_messages_raises
    (f : str) (w w1 : World Env) (d : list (str * json)) :
  selected f = true ->
  (print (u "Processing " ++ f) ;; validate f false) w = (Ok (JObj d), w1) ->
  dict_get (u "messages") d = None ->
  process f w = (Raise (KeyError (u "messages")), w1).
Proof.
  intros Hsel Hval Hd.
  rewrite (process_announce_validate f w Hsel), (bind_ok _ _ _ Hval).
  unfold bind, getitem, raise. now rewrite Hd.
Qed.

(** *** The whole batch *)

Lemma batch_log (l : list str) (w : World Env) :
  exists xs names,
    log (snd (batch l w)) = log w ++ xs
    /\ Forall2 (fun x f => exists body, sent x = upload f body) xs names
    /\ (exists rest, filter selected l = names ++ rest)
    /\ (fst (batch l w) = Ok tt -> names = filter selected l).
Proof.
  unfold batch. revert w. induction l as [|f l IH]; intros w.
  - exists [], []. cbn. rewrite app_nil_r. repeat split; auto.
    now exists [].
  - cbn [for_each filter]. destruct (selected f) eqn:Hsel.
    + destruct (process_log f w Hsel) as (xs1 & Hlog & Hsh & Hok).
      unfold bind.
      destruct (process f w) as [[[]|e] w1]; cbn [fst snd] in *.
      * destruct (Hok eq_refl) as (body & ans & ->).
        destruct (IH w1) as (xs & names & Hl & HF & [rest Hrest] & Hall).
        exists ({| sent := upload f body; received := ans |} :: xs),
               (f :: names).
        rewrite Hl, Hlog, <- app_assoc. split; [reflexivity|].
        split; [constructor; [now exists body|exact HF]|].
        split; [exists rest; cbn; now rewrite Hrest|].
        intros H. now rewrite (Hall H).
      * destruct Hsh as [->|(body & ans & ->)].
        -- exists [], []. rewrite Hlog. repeat split; auto; try discriminate.
           now exists (f :: filter selected l).
        -- exists [{| sent := upload f body; received := ans |}], [f].
           rewrite Hlog. split; [reflexivity|].
           split; [constructor; [now exists body|constructor]|].
           split; [now exists (filter selected l)|discriminate].
    + rewrite (bind_ok _ _ _ (@process_not_selected Env P f w Hsel)).
      apply IH.
Qed.

(** Property X15: whatever the directory holds and however the run ends, every
    request the batch sends is the upload of a selected entry to the
    validator: it never fetches anything and never uploads an entry the
    filter rejects. *)
Theorem batch_sends_only_uploads
    (l : list str) (w : World Env) (x : exchange) :
  In x (issued (batch l) w) ->
  exists f body, In f l /\ selected f = true /\ sent x = upload f body.
Proof.
  unfold issued.
  destruct (batch_log l w) as (xs & names & Hl & HF & [rest Hrest] & _).
  rewrite Hl, skipn_length_app. intros Hin.
  assert (Hn : forall f, In f names -> In f l /\ selected f = true).
  { intros f Hf. apply filter_In. rewrite Hrest. apply in_or_app. now left. }
  clear Hl Hrest. induction HF as [|x0 f xs names [body Hx] HF IH].
  - destruct Hin.
  - destruct Hin as [<-|Hin].
    + exists f, body. destruct (Hn f (or_introl eq_refl)). auto.
    + apply IH; [exact Hin|]. intros f0 Hf0. apply Hn. now right.
Qed.

(** Property X16: a batch that completes has uploaded every selected entry exactly
    once, in the order of the enumeration, and sent nothing else. *)
Theorem completed_batch_uploads_each_selected_once
    (l : list str) (w : World Env) :
  fst (batch l w) = Ok tt ->
  Forall2 (fun x f => exists body, sent x = upload f body)
          (issued (batch l) w) (filter selected l).
Proof.
  intros Hok. unfold issued.
  destruct (batch_log l w) as (xs & names & Hl & HF & _ & Hall).
  rewrite Hl, skipn_length_app, <- (Hall Hok). exact HF.
Qed.

Lemma batch_nothing_selected (l : list str) (w : World Env) :
  (forall f, In f l -> selected f = false) -> batch l w = (Ok tt, w).
Proof.
  unfold batch. induction l as [|f l IH]; intros Hnone.
  - reflexivity.
  - cbn [for_each].
    rewrite (bind_ok _ _ _ (@process_not_selected Env P f w
                              (Hnone f (or_introl eq_refl)))).
    apply IH. intros f0 Hf0. apply Hnone. now right.
Qed.

(** Property X17: a directory in which no name is selected: the script opens
    nothing, sends nothing, prints nothing and ends normally. *)
Theorem nothing_selected_nothing_done
    (names : list str) (w : World Env) (e : Env) :
  os_listdir (u ".") (env w) = (Ok names, e) ->
  (forall f, In f names -> selected f = false) ->
  main w = (Ok tt, {| env := e; log := log w; console := console w |}).
Proof.
  intros Hdir Hnone. unfold main, bind, listdir. rewrite Hdir.
  now apply batch_nothing_selected.
Qed.

(** Property X18: enumerations compose: the batch over a concatenation is the batch
    over the first part followed, if it completes, by the batch over
    the second, which starts in the world the first one left. *)
Theorem batch_of_concatenation (l1 l2 : list str) (w : World Env) :
  batch (l1 ++ l2) w
  = match batch l1 w with
    | (Ok _, w1) => batch l2 w1
    | (Raise e, w1) => (Raise e, w1)
    end.
Proof. unfold batch. rewrite for_each_app. reflexivity. Qed.

(** Property X19: when every selected entry validates to a well-formed
    result and the console can encode every line to be printed, the
    batch completes and the console gets, entry by entry, the progress
    line followed by the diagnostics that are not suppressed; entries
    the filter rejects contribute nothing. *)
Theorem well_formed_results_give_transcript
    (resp : str -> list ValidationMessage) (l : list str) (w : World Env) :
  (forall f w', In f l -> selected f = true ->
     exists v, fst (validate f false w') = Ok v
               /\ as_result v = Some (resp f)) ->
  forallb stdout_encodes
    (flat_map (fun f =>
                 if selected f
                 then (u "Processing " ++ f) :: diagnostics (resp f)
                 else []) l) = true ->
  fst (batch l w) = Ok tt
  /\ printed (batch l) w
     = flat_map (fun f =>
                   if selected f
                   then (u "Processing " ++ f) :: diagnostics (resp f)
                   else []) l.
Proof.
  intros H Henc. destruct (batch_transcript resp l w H Henc) as [Hok Hc].
  split; [exact Hok|]. unfold printed. now rewrite Hc, skipn_length_app.
Qed.

End Driver.

(** ** More runs in the two sample worlds *)

(** A name with a NUL in it is refused by [open]: [ValueError], and
    nothing is sent. *)
Lemma nul_name_sends_nothing :
  is_remote Outage.nul_name = false
  /\ @open_rb unit Outage.platform Outage.nul_name tt = (Raise ValueError, tt)
  /\ @validate unit Outage.platform Outage.nul_name false Outage.world
     = (Raise ValueError, Outage.world).
Proof.
  split; [reflexivity|]. split; [reflexivity|].
  exact (@failed_open_is_propagated unit Outage.platform
           Outage.nul_name false Outage.world ValueError tt
           eq_refl eq_refl).
Defined.

(** The page cannot be fetched, the URL is not even parsed: one GET, no
    POST. *)
Lemma unreachable_page_is_not_posted :
  is_remote (u "http://example..com/") = true
  /\ @validate unit Outage.platform (u "http://example..com/") false
       Outage.world
     = (Raise (OtherException (u "LocationParseError")),
        {| env := tt;
           log := [{| sent := GET (u "http://example..com/") false;
                      received :=
                        Raise (OtherException (u "LocationParseError")) |}];
           console := [] |}).
Proof.
  split; [reflexivity|].
  exact (@failed_get_sends_no_post unit Outage.platform
           (u "http://example..com/") false Outage.world
           (OtherException (u "LocationParseError")) tt eq_refl eq_refl).
Defined.

(** The validator is down for "3-5d.html". *)
Lemma validator_down_raises :
  fst (@validate unit Outage.platform (u "3-5d.html") false Outage.world)
  = Raise RequestException.
Proof.
  exact (@unanswered_post_raises unit Outage.platform
           (u "3-5d.html") false Outage.world
           HTML_VALIDATOR_URL
           [(u "file", {| part_filename := u "3-5d.html";
                          part_data := Sample.bytes "<p>";
                          part_type := u "text/html" |})]
           [(u "out", u "json"); (u "showsource", u "yes")] false
           RequestException (or_introl eq_refl)).
Defined.

(** "3-5a.html" validates to the decoded answer. *)
Lemma sample_result_is_the_decoded_answer :
  exists pre body r,
    issued (validate (u "3-5a.html") false) Sample.world
    = pre ++ [{| sent := upload (u "3-5a.html") body; received := Ok r |}]
    /\ json_loads r = Ok Sample.img_result.
Proof.
  exact (@validate_returns_decoded_answer unit Sample.platform
           (u "3-5a.html") false Sample.world Sample.img_result eq_refl).
Defined.

(** The answer for "3-5r.html" is nested too deep for the decoder:
    [RecursionError], raised by [json()]. *)
Lemma deep_answer_raises_recursion_error :
  is_remote (u "3-5r.html") = false
  /\ fst (@validate unit Outage.platform (u "3-5r.html") false Outage.world)
     = Raise RecursionError
  /\ ((issued (@validate unit Outage.platform (u "3-5r.html") false)
         Outage.world = []
       /\ exists e, @open_rb unit Outage.platform (u "3-5r.html") tt
                    = (Raise RecursionError, e))
      \/ (exists body,
            issued (@validate unit Outage.platform (u "3-5r.html") false)
              Outage.world
            = [{| sent := upload (u "3-5r.html") body;
                  received := Raise RecursionError |}])
      \/ (exists body r,
            issued (@validate unit Outage.platform (u "3-5r.html") false)
              Outage.world
            = [{| sent := upload (u "3-5r.html") body; received := Ok r |}]
            /\ @json_loads unit Outage.platform r = Raise RecursionError)).
Proof.
  split; [reflexivity|]. split; [reflexivity|].
  exact (@local_validate_raises_only unit Outage.platform
           (u "3-5r.html") false Outage.world RecursionError
           eq_refl eq_refl).
Defined.

(** A message without a line number is not half printed. *)
Lemma no_line_leaves_the_console :
  report Outage.no_line Sample.world
  = (Raise (KeyError (u "lastLine")), Sample.world)
  /\ Sample.world = Sample.world.
Proof.
  split; [reflexivity|].
  exact (@failed_report_prints_nothing unit Sample.platform
           Outage.no_line Sample.world Sample.world
           (KeyError (u "lastLine")) eq_refl).
Defined.

(** A notice with no type and no line number is skipped quietly. *)
Lemma bare_notice_is_skipped :
  report Outage.bare_notice Sample.world = (Ok tt, Sample.world).
Proof.
  exact (@noisy_message_is_skipped_unread unit Sample.platform
           [(u "message",
             JStr (u "The “name” attribute is obsolete. Use id."))]
           (u "The “name” attribute is obsolete. Use id.")
           Sample.world eq_refl eq_refl).
Defined.

(** The message without a line number raises for that key. *)
Lemma no_line_raises_key_error :
  report Outage.no_line Sample.world
  = (Raise (KeyError (u "lastLine")), Sample.world).
Proof.
  exact (@missing_line_number_raises unit Sample.platform
           [(u "type", JStr (u "non-document-error"));
            (u "message", JStr (u "Stray end tag."))]
           (u "Stray end tag.") (JStr (u "non-document-error"))
           Sample.world eq_refl eq_refl eq_refl eq_refl).
Defined.

(** "Bad tag" is printed, the message without a line number stops the
    loop, the message after it is never reached. *)
Lemma loop_stops_at_no_line :
  for_each ([Sample.msg "error" 2 "Bad tag"]
              ++ Outage.no_line :: [Sample.msg "error" 9 "Never reached"])
    report Sample.world
  = (Raise (KeyError (u "lastLine")),
     say [u "Type: error, Line: 2, Description: Bad tag"] Sample.world).
Proof.
  exact (@message_loop_stops_at_bad_message unit Sample.platform
           [Sample.msg "error" 2 "Bad tag"]
           [Sample.msg "error" 9 "Never reached"]
           Outage.no_line
           [{| type_ := u "error"; lastLine := 2; message := u "Bad tag" |}]
           Sample.world
           (say [u "Type: error, Line: 2, Description: Bad tag"] Sample.world)
           (KeyError (u "lastLine")) eq_refl eq_refl eq_refl).
Defined.

(** "3-5c.html" is announced although its validation fails; a name
    with a lone surrogate cannot be announced and ends the entry. *)
Lemma failing_file_is_announced :
  selected (u "3-5c.html") = true
  /\ selected Outage.surrogate_name = true
  /\ (exists ls,
        console (snd (process (u "3-5c.html") Sample.world))
        = console Sample.world ++ (u "Processing " ++ u "3-5c.html") :: ls)
  /\ process Outage.surrogate_name Sample.world
     = (Raise UnicodeEncodeError, Sample.world).
Proof.
  split; [reflexivity|]. split; [reflexivity|]. split.
  - exact (proj1 (@progress_line_comes_first unit Sample.platform
                    (u "3-5c.html") Sample.world eq_refl) eq_refl).
  - exact (proj2 (@progress_line_comes_first unit Sample.platform
                    Outage.surrogate_name Sample.world eq_refl) eq_refl).
Defined.

(** The answer for "3-5k.html" has no "messages". *)
Lemma nokey_answer_raises_key_error :
  fst (@process unit Outage.platform (u "3-5k.html") Outage.world)
  = Raise (KeyError (u "messages")).
Proof.
  exact (f_equal fst
           (@result_without_messages_raises unit Outage.platform
              (u "3-5k.html") Outage.world
              (snd (@validate unit Outage.platform (u "3-5k.html") false
                      (say [u "Processing " ++ u "3-5k.html"] Outage.world)))
              [(u "version", JInt 1)] eq_refl eq_refl eq_refl)).
Defined.

(** In the sample directory the one request sent uploads a selected
    entry. *)
Lemma sample_batch_uploads_a_selected_entry :
  exists f body,
    In f Sample.directory /\ selected f = true
    /\ upload (u "3-5a.html") (Sample.bytes "<img>") = upload f body.
Proof.
  exact (@batch_sends_only_uploads unit Sample.platform
           Sample.directory Sample.world
           {| sent := upload (u "3-5a.html") (Sample.bytes "<img>");
              received := Ok {| status_code := 200;
                                content := Sample.bytes "<img>" |} |}
           (or_introl eq_refl)).
Defined.

(** Three entries, two of them selected: two uploads, in order. *)
Lemma two_selected_two_uploads :
  Forall2 (fun x f => exists body, sent x = upload f body)
    (issued (batch [u "3-5a.html"; u "other.html"; u "3-5b.html"])
       Sample.world)
    [u "3-5a.html"; u "3-5b.html"].
Proof.
  exact (@completed_batch_uploads_each_selected_once unit Sample.platform
           [u "3-5a.html"; u "other.html"; u "3-5b.html"] Sample.world
           eq_refl).
Defined.

(** The directory of the second world holds no selected name. *)
Lemma unmatched_directory_is_left_alone :
  @main unit Outage.platform Outage.world = (Ok tt, Outage.world).
Proof.
  refine (@nothing_selected_nothing_done unit Outage.platform
            Outage.directory Outage.world tt eq_refl _).
  intros f [<-|[<-|[]]]; reflexivity.
Defined.

(** The transcript of two files that validate. *)
Lemma transcript_of_two_files :
  printed (batch [u "3-5a.html"; u "3-5b.html"]) Sample.world
  = [u "Processing 3-5a.html";
     u "Type: error, Line: 2, Description: Bad tag";
     u "Processing 3-5b.html";
     u "Type: error, Line: 7, Description: Stray end tag."].
Proof.
  refine (proj2
    (@well_formed_results_give_transcript unit Sample.platform
       (fun f =>
          if str_eqb f (u "3-5a.html") then Sample.img_records
          else [ {| type_ := u "info"; lastLine := 3;
                    message := u "The “name” attribute is obsolete." |};
                 {| type_ := u "error"; lastLine := 7;
                    message := u "Stray end tag." |} ])
       [u "3-5a.html"; u "3-5b.html"] Sample.world _ eq_refl)).
  intros f w' [<-|[<-|[]]] _; eexists; split; reflexivity.
Defined.
